(** * Hardware breakpoints on a thread's debug registers (hwbp)

    A shallow embedding of [dr.h] (the debug-register unions) and of
    [hwbp.h] / [hwbp.c] (descriptor, slot allocator, context mutation and the
    suspend / read / mutate / write / resume transaction), followed by the
    properties of the design that are settled against it. *)

From Stdlib Require Import ZArith List Bool Lia.
Import ListNotations.
Local Open Scope Z_scope.

(* ===================================================================== *)
(** ** Bit-fields of a 64-bit storage unit *)
(* ===================================================================== *)

(** A [uintN_t f : w] member that starts at bit [off] of its storage unit.
    Reading shifts and masks; writing keeps the low [w] bits of the value
    stored (the conversion C applies on assignment to an unsigned bit-field)
    and leaves every other bit of the unit alone. *)
Module Bitfield.

Definition get (off w x : Z) : Z :=
  Z.land (Z.shiftr x off) (Z.ones w).

Definition set (off w v x : Z) : Z :=
  Z.lor (Z.ldiff x (Z.shiftl (Z.ones w) off))
        (Z.shiftl (Z.land v (Z.ones w)) off).

(** Bit [n] lies inside the field at [off] of width [w]. *)
Definition covers (off w n : Z) : bool :=
  (off <=? n) && (n <? off + w).

End Bitfield.

(* ===================================================================== *)
(** ** dr.h: the debug control register DR7 *)
(* ===================================================================== *)

(** [dr7] is a union of the 64-bit member [flags] with a struct of
    bit-fields.  The union is modelled by its storage, the value of [flags];
    each struct member is the bit-field at the position the header documents
    (L0 at bit 0, G0 at bit 1, ..., LE at bit 8, RTM at bit 11, GD at bit 13,
    R/W0 at bits 17:16, LEN0 at bits 19:18, ...), which is the allocation from
    the least significant bit upwards, in declaration order. *)
Definition uint64_max : Z := 2 ^ 64 - 1.

Definition is_uint64 (x : Z) : Prop := 0 <= x <= uint64_max.

Module DR7.

(** Offset and width of every member, in declaration order. *)
Definition local_breakpoint_0_at              : Z * Z := (0, 1).
Definition global_breakpoint_0_at             : Z * Z := (1, 1).
Definition local_breakpoint_1_at              : Z * Z := (2, 1).
Definition global_breakpoint_1_at             : Z * Z := (3, 1).
Definition local_breakpoint_2_at              : Z * Z := (4, 1).
Definition global_breakpoint_2_at             : Z * Z := (5, 1).
Definition local_breakpoint_3_at              : Z * Z := (6, 1).
Definition global_breakpoint_3_at             : Z * Z := (7, 1).
Definition local_exact_breakpoint_at          : Z * Z := (8, 1).
Definition global_exact_breakpoint_at         : Z * Z := (9, 1).
Definition reserved1_at                       : Z * Z := (10, 1).
Definition restricted_transactional_memory_at : Z * Z := (11, 1).
Definition reserved2_at                       : Z * Z := (12, 1).
Definition general_detect_at                  : Z * Z := (13, 1).
Definition reserved3_at                       : Z * Z := (14, 2).
Definition read_write_0_at                    : Z * Z := (16, 2).
Definition length_0_at                        : Z * Z := (18, 2).
Definition read_write_1_at                    : Z * Z := (20, 2).
Definition length_1_at                        : Z * Z := (22, 2).
Definition read_write_2_at                    : Z * Z := (24, 2).
Definition length_2_at                        : Z * Z := (26, 2).
Definition read_write_3_at                    : Z * Z := (28, 2).
Definition length_3_at                        : Z * Z := (30, 2).
Definition reserved4_at                       : Z * Z := (32, 32).

Definition rd (at_ : Z * Z) (flags : Z) : Z :=
  Bitfield.get (fst at_) (snd at_) flags.

Definition wr (at_ : Z * Z) (v flags : Z) : Z :=
  Bitfield.set (fst at_) (snd at_) v flags.

(** Member reads, [_dr7.member]. *)
Definition local_breakpoint_0  := rd local_breakpoint_0_at.
Definition global_breakpoint_0 := rd global_breakpoint_0_at.
Definition local_breakpoint_1  := rd local_breakpoint_1_at.
Definition global_breakpoint_1 := rd global_breakpoint_1_at.
Definition local_breakpoint_2  := rd local_breakpoint_2_at.
Definition global_breakpoint_2 := rd global_breakpoint_2_at.
Definition local_breakpoint_3  := rd local_breakpoint_3_at.
Definition global_breakpoint_3 := rd global_breakpoint_3_at.
Definition read_write_0 := rd read_write_0_at.
Definition length_0     := rd length_0_at.
Definition read_write_1 := rd read_write_1_at.
Definition length_1     := rd length_1_at.
Definition read_write_2 := rd read_write_2_at.
Definition length_2     := rd length_2_at.
Definition read_write_3 := rd read_write_3_at.
Definition length_3     := rd length_3_at.

(** Member writes, [_dr7.member = v]. *)
Definition set_local_breakpoint_0 := wr local_breakpoint_0_at.
Definition set_local_breakpoint_1 := wr local_breakpoint_1_at.
Definition set_local_breakpoint_2 := wr local_breakpoint_2_at.
Definition set_local_breakpoint_3 := wr local_breakpoint_3_at.
Definition set_read_write_0 := wr read_write_0_at.
Definition set_length_0     := wr length_0_at.
Definition set_read_write_1 := wr read_write_1_at.
Definition set_length_1     := wr length_1_at.
Definition set_read_write_2 := wr read_write_2_at.
Definition set_length_2     := wr length_2_at.
Definition set_read_write_3 := wr read_write_3_at.
Definition set_length_3     := wr length_3_at.

(** The struct view as a value: one component per member. *)
Record fields : Type := Fields {
  f_local_breakpoint_0 : Z;  f_global_breakpoint_0 : Z;
  f_local_breakpoint_1 : Z;  f_global_breakpoint_1 : Z;
  f_local_breakpoint_2 : Z;  f_global_breakpoint_2 : Z;
  f_local_breakpoint_3 : Z;  f_global_breakpoint_3 : Z;
  f_local_exact_breakpoint : Z;
  f_global_exact_breakpoint : Z;
  f_reserved1 : Z;
  f_restricted_transactional_memory : Z;
  f_reserved2 : Z;
  f_general_detect : Z;
  f_reserved3 : Z;
  f_read_write_0 : Z;  f_length_0 : Z;
  f_read_write_1 : Z;  f_length_1 : Z;
  f_read_write_2 : Z;  f_length_2 : Z;
  f_read_write_3 : Z;  f_length_3 : Z;
  f_reserved4 : Z
}.

(** Storing [x] through [flags] and reading every struct member. *)
Definition decode (x : Z) : fields :=
  {| f_local_breakpoint_0  := local_breakpoint_0 x;
     f_global_breakpoint_0 := global_breakpoint_0 x;
     f_local_breakpoint_1  := local_breakpoint_1 x;
     f_global_breakpoint_1 := global_breakpoint_1 x;
     f_local_breakpoint_2  := local_breakpoint_2 x;
     f_global_breakpoint_2 := global_breakpoint_2 x;
     f_local_breakpoint_3  := local_breakpoint_3 x;
     f_global_breakpoint_3 := global_breakpoint_3 x;
     f_local_exact_breakpoint  := rd local_exact_breakpoint_at x;
     f_global_exact_breakpoint := rd global_exact_breakpoint_at x;
     f_reserved1 := rd reserved1_at x;
     f_restricted_transactional_memory :=
       rd restricted_transactional_memory_at x;
     f_reserved2 := rd reserved2_at x;
     f_general_detect := rd general_detect_at x;
     f_reserved3 := rd reserved3_at x;
     f_read_write_0 := read_write_0 x;  f_length_0 := length_0 x;
     f_read_write_1 := read_write_1 x;  f_length_1 := length_1 x;
     f_read_write_2 := read_write_2 x;  f_length_2 := length_2 x;
     f_read_write_3 := read_write_3 x;  f_length_3 := length_3 x;
     f_reserved4 := rd reserved4_at x |}.

(** Placing one member's value at its position. *)
Definition place (at_ : Z * Z) (v : Z) : Z := Z.shiftl v (fst at_).

(** Storing every struct member and reading [flags]. *)
Definition encode (d : fields) : Z :=
  Z.lor (place local_breakpoint_0_at  (f_local_breakpoint_0 d))
 (Z.lor (place global_breakpoint_0_at (f_global_breakpoint_0 d))
 (Z.lor (place local_breakpoint_1_at  (f_local_breakpoint_1 d))
 (Z.lor (place global_breakpoint_1_at (f_global_breakpoint_1 d))
 (Z.lor (place local_breakpoint_2_at  (f_local_breakpoint_2 d))
 (Z.lor (place global_breakpoint_2_at (f_global_breakpoint_2 d))
 (Z.lor (place local_breakpoint_3_at  (f_local_breakpoint_3 d))
 (Z.lor (place global_breakpoint_3_at (f_global_breakpoint_3 d))
 (Z.lor (place local_exact_breakpoint_at  (f_local_exact_breakpoint d))
 (Z.lor (place global_exact_breakpoint_at (f_global_exact_breakpoint d))
 (Z.lor (place reserved1_at (f_reserved1 d))
 (Z.lor (place restricted_transactional_memory_at
               (f_restricted_transactional_memory d))
 (Z.lor (place reserved2_at (f_reserved2 d))
 (Z.lor (place general_detect_at (f_general_detect d))
 (Z.lor (place reserved3_at (f_reserved3 d))
 (Z.lor (place read_write_0_at (f_read_write_0 d))
 (Z.lor (place length_0_at     (f_length_0 d))
 (Z.lor (place read_write_1_at (f_read_write_1 d))
 (Z.lor (place length_1_at     (f_length_1 d))
 (Z.lor (place read_write_2_at (f_read_write_2 d))
 (Z.lor (place length_2_at     (f_length_2 d))
 (Z.lor (place read_write_3_at (f_read_write_3 d))
 (Z.lor (place length_3_at     (f_length_3 d))
        (place reserved4_at    (f_reserved4 d)))))))))))))))))))))))).

(** The members of breakpoint [i], for stating properties per slot. *)
Definition local_breakpoint (i : Z) : Z -> Z :=
  match i with
  | 0 => local_breakpoint_0 | 1 => local_breakpoint_1
  | 2 => local_breakpoint_2 | 3 => local_breakpoint_3
  | _ => fun _ => 0
  end.

Definition read_write (i : Z) : Z -> Z :=
  match i with
  | 0 => read_write_0 | 1 => read_write_1
  | 2 => read_write_2 | 3 => read_write_3
  | _ => fun _ => 0
  end.

Definition length (i : Z) : Z -> Z :=
  match i with
  | 0 => length_0 | 1 => length_1
  | 2 => length_2 | 3 => length_3
  | _ => fun _ => 0
  end.

(** Bit [n] of DR7 belongs to breakpoint [i]: its local-enable bit [2i],
    its R/W field [17+4i:16+4i] or its LEN field [19+4i:18+4i]. *)
Definition owned_by (i n : Z) : bool :=
  (n =? 2 * i) || ((16 + 4 * i <=? n) && (n <? 20 + 4 * i)).

(** Breakpoint [i] is absent: not enabled for the task, no type or length
    left in its fields. *)
Definition slot_empty (i x : Z) : bool :=
  (local_breakpoint i x =? 0) && (read_write i x =? 0) && (length i x =? 0).

(** All four slots are empty in that sense.  This asks for more than "no
    slot is enabled": the R/W and LEN fields are zero as well. *)
Definition all_slots_empty (x : Z) : bool :=
  slot_empty 0 x && slot_empty 1 x && slot_empty 2 x && slot_empty 3 x.

End DR7.

(* ===================================================================== *)
(** ** dr.h: the debug status register DR6 *)
(* ===================================================================== *)

(** [dr6] is the same kind of union: B0..B3 in bits 3:0, nine reserved
    bits, BD at bit 13, BS at bit 14, BT at bit 15, RTM at bit 16 and 47
    reserved bits above. *)
Module DR6.

Definition breakpoint_condition_at            : Z * Z := (0, 4).
Definition reserved1_at                       : Z * Z := (4, 9).
Definition debug_register_access_detected_at  : Z * Z := (13, 1).
Definition single_instruction_at              : Z * Z := (14, 1).
Definition task_switch_at                     : Z * Z := (15, 1).
Definition restricted_transactional_memory_at : Z * Z := (16, 1).
Definition reserved2_at                       : Z * Z := (17, 47).

Definition breakpoint_condition := DR7.rd breakpoint_condition_at.
Definition debug_register_access_detected :=
  DR7.rd debug_register_access_detected_at.
Definition single_instruction := DR7.rd single_instruction_at.
Definition task_switch := DR7.rd task_switch_at.
Definition restricted_transactional_memory :=
  DR7.rd restricted_transactional_memory_at.

Record fields : Type := Fields {
  f_breakpoint_condition : Z;
  f_reserved1 : Z;
  f_debug_register_access_detected : Z;
  f_single_instruction : Z;
  f_task_switch : Z;
  f_restricted_transactional_memory : Z;
  f_reserved2 : Z
}.

Definition decode (x : Z) : fields :=
  {| f_breakpoint_condition := breakpoint_condition x;
     f_reserved1 := DR7.rd reserved1_at x;
     f_debug_register_access_detected := debug_register_access_detected x;
     f_single_instruction := single_instruction x;
     f_task_switch := task_switch x;
     f_restricted_transactional_memory := restricted_transactional_memory x;
     f_reserved2 := DR7.rd reserved2_at x |}.

Definition encode (d : fields) : Z :=
  Z.lor (DR7.place breakpoint_condition_at (f_breakpoint_condition d))
 (Z.lor (DR7.place reserved1_at (f_reserved1 d))
 (Z.lor (DR7.place debug_register_access_detected_at
                   (f_debug_register_access_detected d))
 (Z.lor (DR7.place single_instruction_at (f_single_instruction d))
 (Z.lor (DR7.place task_switch_at (f_task_switch d))
 (Z.lor (DR7.place restricted_transactional_memory_at
                   (f_restricted_transactional_memory d))
        (DR7.place reserved2_at (f_reserved2 d))))))).

End DR6.

(** A value that a bit-field member of the given position can hold. *)
Definition fits (at_ : Z * Z) (v : Z) : Prop := 0 <= v < 2 ^ snd at_.

(** Every member of a DR7 struct value holds a value of its width. *)
Definition dr7_fields_fit (d : DR7.fields) : Prop :=
  fits DR7.local_breakpoint_0_at (DR7.f_local_breakpoint_0 d) /\
  fits DR7.global_breakpoint_0_at (DR7.f_global_breakpoint_0 d) /\
  fits DR7.local_breakpoint_1_at (DR7.f_local_breakpoint_1 d) /\
  fits DR7.global_breakpoint_1_at (DR7.f_global_breakpoint_1 d) /\
  fits DR7.local_breakpoint_2_at (DR7.f_local_breakpoint_2 d) /\
  fits DR7.global_breakpoint_2_at (DR7.f_global_breakpoint_2 d) /\
  fits DR7.local_breakpoint_3_at (DR7.f_local_breakpoint_3 d) /\
  fits DR7.global_breakpoint_3_at (DR7.f_global_breakpoint_3 d) /\
  fits DR7.local_exact_breakpoint_at (DR7.f_local_exact_breakpoint d) /\
  fits DR7.global_exact_breakpoint_at (DR7.f_global_exact_breakpoint d) /\
  fits DR7.reserved1_at (DR7.f_reserved1 d) /\
  fits DR7.restricted_transactional_memory_at
       (DR7.f_restricted_transactional_memory d) /\
  fits DR7.reserved2_at (DR7.f_reserved2 d) /\
  fits DR7.general_detect_at (DR7.f_general_detect d) /\
  fits DR7.reserved3_at (DR7.f_reserved3 d) /\
  fits DR7.read_write_0_at (DR7.f_read_write_0 d) /\
  fits DR7.length_0_at (DR7.f_length_0 d) /\
  fits DR7.read_write_1_at (DR7.f_read_write_1 d) /\
  fits DR7.length_1_at (DR7.f_length_1 d) /\
  fits DR7.read_write_2_at (DR7.f_read_write_2 d) /\
  fits DR7.length_2_at (DR7.f_length_2 d) /\
  fits DR7.read_write_3_at (DR7.f_read_write_3 d) /\
  fits DR7.length_3_at (DR7.f_length_3 d) /\
  fits DR7.reserved4_at (DR7.f_reserved4 d).

Definition dr6_fields_fit (d : DR6.fields) : Prop :=
  fits DR6.breakpoint_condition_at (DR6.f_breakpoint_condition d) /\
  fits DR6.reserved1_at (DR6.f_reserved1 d) /\
  fits DR6.debug_register_access_detected_at
       (DR6.f_debug_register_access_detected d) /\
  fits DR6.single_instruction_at (DR6.f_single_instruction d) /\
  fits DR6.task_switch_at (DR6.f_task_switch d) /\
  fits DR6.restricted_transactional_memory_at
       (DR6.f_restricted_transactional_memory d) /\
  fits DR6.reserved2_at (DR6.f_reserved2 d).

(** The members of the DR7 struct, in declaration order. *)
Definition dr7_members : list (Z * Z) :=
  [ DR7.local_breakpoint_0_at; DR7.global_breakpoint_0_at;
    DR7.local_breakpoint_1_at; DR7.global_breakpoint_1_at;
    DR7.local_breakpoint_2_at; DR7.global_breakpoint_2_at;
    DR7.local_breakpoint_3_at; DR7.global_breakpoint_3_at;
    DR7.local_exact_breakpoint_at; DR7.global_exact_breakpoint_at;
    DR7.reserved1_at; DR7.restricted_transactional_memory_at;
    DR7.reserved2_at; DR7.general_detect_at; DR7.reserved3_at;
    DR7.read_write_0_at; DR7.length_0_at;
    DR7.read_write_1_at; DR7.length_1_at;
    DR7.read_write_2_at; DR7.length_2_at;
    DR7.read_write_3_at; DR7.length_3_at;
    DR7.reserved4_at ].

(** All bits of [t] below position [m] are clear. *)
Definition low_zero (m t : Z) : Prop :=
  forall n, n < m -> Z.testbit t n = false.

(* ===================================================================== *)
(** ** hwbp.h: enumerations and the breakpoint descriptor *)
(* ===================================================================== *)

Inductive BP_READ_WRITE : Type :=
| INSTRUCTION_EXECUTION
| DATA_WRITEONLY
| IO_READWRITE
| DATA_READWRITE.

Definition BP_READ_WRITE_value (rw : BP_READ_WRITE) : Z :=
  match rw with
  | INSTRUCTION_EXECUTION => 0
  | DATA_WRITEONLY => 1
  | IO_READWRITE => 2
  | DATA_READWRITE => 3
  end.

Inductive BP_LENGTH : Type :=
| ONE_BYTE
| TWO_BYTE
| EIGHT_BYTE
| FOUR_BYTE.

Definition BP_LENGTH_value (l : BP_LENGTH) : Z :=
  match l with
  | ONE_BYTE => 0
  | TWO_BYTE => 1
  | EIGHT_BYTE => 2
  | FOUR_BYTE => 3
  end.

(** Size in bytes of the region an enumerator names. *)
Definition BP_LENGTH_bytes (l : BP_LENGTH) : Z :=
  match l with
  | ONE_BYTE => 1
  | TWO_BYTE => 2
  | EIGHT_BYTE => 8
  | FOUR_BYTE => 4
  end.

(** [struct _HWBP].  [target] is the pointer value, [index] the [int8_t]
    slot number ([-1] when none), [enabled] the [uint8_t] holding
    [TRUE] / [FALSE]. *)
Record HWBP : Type := mkHWBP {
  target : Z;
  threadId : Z;
  read_write : BP_READ_WRITE;
  length : BP_LENGTH;
  index : Z;
  enabled : bool
}.

Definition set_index (i : Z) (bp : HWBP) : HWBP :=
  mkHWBP (target bp) (threadId bp) (read_write bp) (length bp) i (enabled bp).

Definition set_enabled (e : bool) (bp : HWBP) : HWBP :=
  mkHWBP (target bp) (threadId bp) (read_write bp) (length bp) (index bp) e.

(** The part of the Windows [CONTEXT] the code touches: the selector
    [ContextFlags] and the debug registers. *)
Record CONTEXT : Type := mkCONTEXT {
  ContextFlags : Z;
  Dr0 : Z;
  Dr1 : Z;
  Dr2 : Z;
  Dr3 : Z;
  Dr6 : Z;
  Dr7 : Z
}.

Definition set_Dr0 (v : Z) (c : CONTEXT) : CONTEXT :=
  mkCONTEXT (ContextFlags c) v (Dr1 c) (Dr2 c) (Dr3 c) (Dr6 c) (Dr7 c).
Definition set_Dr1 (v : Z) (c : CONTEXT) : CONTEXT :=
  mkCONTEXT (ContextFlags c) (Dr0 c) v (Dr2 c) (Dr3 c) (Dr6 c) (Dr7 c).
Definition set_Dr2 (v : Z) (c : CONTEXT) : CONTEXT :=
  mkCONTEXT (ContextFlags c) (Dr0 c) (Dr1 c) v (Dr3 c) (Dr6 c) (Dr7 c).
Definition set_Dr3 (v : Z) (c : CONTEXT) : CONTEXT :=
  mkCONTEXT (ContextFlags c) (Dr0 c) (Dr1 c) (Dr2 c) v (Dr6 c) (Dr7 c).
Definition set_Dr7 (v : Z) (c : CONTEXT) : CONTEXT :=
  mkCONTEXT (ContextFlags c) (Dr0 c) (Dr1 c) (Dr2 c) (Dr3 c) (Dr6 c) v.
Definition set_ContextFlags (v : Z) (c : CONTEXT) : CONTEXT :=
  mkCONTEXT v (Dr0 c) (Dr1 c) (Dr2 c) (Dr3 c) (Dr6 c) (Dr7 c).

(** Address register of breakpoint [i]. *)
Definition DrN (i : Z) (c : CONTEXT) : Z :=
  match i with
  | 0 => Dr0 c | 1 => Dr1 c | 2 => Dr2 c | 3 => Dr3 c
  | _ => 0
  end.

(* ===================================================================== *)
(** ** hwbp.c: descriptor initialisation, allocator, context mutation *)
(* ===================================================================== *)

Definition bp_init (lpTarget threadId_ : Z)
    (read_write_ : BP_READ_WRITE) (length_ : BP_LENGTH) : HWBP :=
  mkHWBP lpTarget threadId_ read_write_ length_ (-1) false.

(** [malloc] either fails ([NULL], here [None]) or yields the storage that
    [bp_init] fills. *)
Definition bp_create (malloc_ok : bool) (lpTarget threadId_ : Z)
    (read_write_ : BP_READ_WRITE) (length_ : BP_LENGTH) : option HWBP :=
  if malloc_ok then Some (bp_init lpTarget threadId_ read_write_ length_)
  else None.

Definition get_free_index (_dr7 : Z) : Z :=
  if DR7.local_breakpoint_0 _dr7 =? 0 then 0
  else if DR7.local_breakpoint_1 _dr7 =? 0 then 1
  else if DR7.local_breakpoint_2 _dr7 =? 0 then 2
  else if DR7.local_breakpoint_3 _dr7 =? 0 then 3
  else -1.

(** The [switch (idx)] of [bp_add_to_ctx]: the context and the local [_dr7]
    after the selected case, or [None] for the [default] branch. *)
Definition bp_add_switch (idx : Z) (bp : HWBP) (ctx : CONTEXT) (_dr7 : Z)
    : option (CONTEXT * Z) :=
  let len := BP_LENGTH_value (length bp) in
  let rw := BP_READ_WRITE_value (read_write bp) in
  match idx with
  | 0 => Some (set_Dr0 (target bp) ctx,
               DR7.set_read_write_0 rw
                 (DR7.set_length_0 len (DR7.set_local_breakpoint_0 1 _dr7)))
  | 1 => Some (set_Dr1 (target bp) ctx,
               DR7.set_read_write_1 rw
                 (DR7.set_length_1 len (DR7.set_local_breakpoint_1 1 _dr7)))
  | 2 => Some (set_Dr2 (target bp) ctx,
               DR7.set_read_write_2 rw
                 (DR7.set_length_2 len (DR7.set_local_breakpoint_2 1 _dr7)))
  | 3 => Some (set_Dr3 (target bp) ctx,
               DR7.set_read_write_3 rw
                 (DR7.set_length_3 len (DR7.set_local_breakpoint_3 1 _dr7)))
  | _ => None
  end.

(** Result, descriptor and context after the call. *)
Definition bp_add_to_ctx (bp : HWBP) (ctx : CONTEXT)
    : bool * HWBP * CONTEXT :=
  let _dr7 := Dr7 ctx in
  let idx := get_free_index _dr7 in
  if idx =? -1 then (false, bp, ctx)
  else
    match bp_add_switch idx bp ctx _dr7 with
    | None => (false, bp, ctx)
    | Some (ctx1, _dr7') => (true, set_index idx bp, set_Dr7 _dr7' ctx1)
    end.

(** The [switch (bp->index)] of [bp_remove_from_ctx]. *)
Definition bp_remove_switch (idx : Z) (ctx : CONTEXT) (_dr7 : Z)
    : option (CONTEXT * Z) :=
  match idx with
  | 0 => Some (set_Dr0 0 ctx,
               DR7.set_read_write_0 0
                 (DR7.set_length_0 0 (DR7.set_local_breakpoint_0 0 _dr7)))
  | 1 => Some (set_Dr1 0 ctx,
               DR7.set_read_write_1 0
                 (DR7.set_length_1 0 (DR7.set_local_breakpoint_1 0 _dr7)))
  | 2 => Some (set_Dr2 0 ctx,
               DR7.set_read_write_2 0
                 (DR7.set_length_2 0 (DR7.set_local_breakpoint_2 0 _dr7)))
  | 3 => Some (set_Dr3 0 ctx,
               DR7.set_read_write_3 0
                 (DR7.set_length_3 0 (DR7.set_local_breakpoint_3 0 _dr7)))
  | _ => None
  end.

Definition bp_remove_from_ctx (bp : HWBP) (ctx : CONTEXT)
    : bool * HWBP * CONTEXT :=
  let _dr7 := Dr7 ctx in
  match bp_remove_switch (index bp) ctx _dr7 with
  | None => (false, set_enabled false bp, ctx)
  | Some (ctx1, _dr7') => (true, set_index (-1) bp, set_Dr7 _dr7' ctx1)
  end.

(* ===================================================================== *)
(** ** The operating-system primitives *)
(* ===================================================================== *)

(** The calls the code makes, with the handle (or thread id) passed. *)
Inductive os_call : Type :=
| call_OpenThread (dwDesiredAccess dwThreadId : Z)
| call_SuspendThread (hThread : Z)
| call_GetThreadContext (hThread : Z)
| call_SetThreadContext (hThread : Z)
| call_ResumeThread (hThread : Z)
| call_CloseHandle (hThread : Z).

Definition os_call_eq_dec (a b : os_call) : {a = b} + {a <> b}.
Proof. decide equality; apply Z.eq_dec. Defined.

(** The target thread's debug registers and the calls made so far. *)
Record World : Type := mkWorld {
  thread : CONTEXT;
  calls : list os_call
}.

(** What the primitives answer during one transaction: the handle
    [OpenThread] returns ([0] is [NULL]), the value [SuspendThread] returns
    (the previous suspend count, or [(DWORD)-1]), and whether
    [GetThreadContext] and [SetThreadContext] succeed. *)
Record Answers : Type := mkAnswers {
  OpenThread_returns : Z;
  SuspendThread_returns : Z;
  GetThreadContext_ok : bool;
  SetThreadContext_ok : bool
}.

Definition DWORD_minus_1 : Z := 2 ^ 32 - 1.

Definition THREAD_SUSPEND_RESUME : Z := 2.
Definition THREAD_GET_CONTEXT : Z := 8.
Definition THREAD_SET_CONTEXT : Z := 16.
Definition CONTEXT_DEBUG_REGISTERS : Z := 1048592.

(** Computations over the world. *)
Definition OS (A : Type) : Type := World -> A * World.

Definition ret {A : Type} (a : A) : OS A := fun w => (a, w).

Definition bind {A B : Type} (c : OS A) (k : A -> OS B) : OS B :=
  fun w => let (a, w') := c w in k a w'.

Declare Scope os_scope.
Delimit Scope os_scope with os.
Notation "x <- c ;; k" := (bind c (fun x => k))
  (at level 61, c at next level, right associativity) : os_scope.
Notation "c ;; k" := (bind c (fun _ => k))
  (at level 61, right associativity) : os_scope.
Local Open Scope os_scope.

Definition record (c : os_call) : OS unit :=
  fun w => (tt, mkWorld (thread w) (calls w ++ [c])).

Definition OpenThread (a : Answers) (dwDesiredAccess dwThreadId : Z) : OS Z :=
  record (call_OpenThread dwDesiredAccess dwThreadId) ;;
  ret (OpenThread_returns a).

Definition SuspendThread (a : Answers) (hThread : Z) : OS Z :=
  record (call_SuspendThread hThread) ;;
  ret (SuspendThread_returns a).

Definition ResumeThread (hThread : Z) : OS unit :=
  record (call_ResumeThread hThread).

Definition CloseHandle (hThread : Z) : OS unit :=
  record (call_CloseHandle hThread).

(** The debug registers of [src] copied over those of [dst]; this is what
    a context transfer selected by [CONTEXT_DEBUG_REGISTERS] moves. *)
Definition copy_debug_registers (src dst : CONTEXT) : CONTEXT :=
  mkCONTEXT (ContextFlags dst)
            (Dr0 src) (Dr1 src) (Dr2 src) (Dr3 src) (Dr6 src) (Dr7 src).

(** On success the debug registers of the thread are copied into [ctx]; on
    failure [ctx] is as the caller left it. *)
Definition GetThreadContext (a : Answers) (hThread : Z) (ctx : CONTEXT)
    : OS (bool * CONTEXT) :=
  record (call_GetThreadContext hThread) ;;
  fun w =>
    if GetThreadContext_ok a
    then ((true, copy_debug_registers (thread w) ctx), w)
    else ((false, ctx), w).

(** On success the debug registers of [ctx] become the thread's, all at
    once; on failure the thread keeps what it had. *)
Definition SetThreadContext (a : Answers) (hThread : Z) (ctx : CONTEXT)
    : OS bool :=
  record (call_SetThreadContext hThread) ;;
  fun w =>
    if SetThreadContext_ok a
    then (true, mkWorld (copy_debug_registers ctx (thread w)) (calls w))
    else (false, w).

(* ===================================================================== *)
(** ** hwbp.c: bp_enable and bp_disable *)
(* ===================================================================== *)

Definition CONTEXT_zero : CONTEXT := mkCONTEXT 0 0 0 0 0 0 0.

Definition thread_access : Z :=
  Z.lor THREAD_SUSPEND_RESUME (Z.lor THREAD_GET_CONTEXT THREAD_SET_CONTEXT).

(** The value returned and the descriptor after the call. *)
Definition bp_enable (a : Answers) (bp : HWBP) : OS (bool * HWBP) :=
  hThread <- OpenThread a thread_access (threadId bp) ;;
  if hThread =? 0 then ret (false, bp)
  else
    r <- SuspendThread a hThread ;;
    if r =? DWORD_minus_1 then
      CloseHandle hThread ;; ret (false, bp)
    else
      let ctx := set_ContextFlags CONTEXT_DEBUG_REGISTERS CONTEXT_zero in
      g <- GetThreadContext a hThread ctx ;;
      let (got, ctx) := g in
      if negb got then
        ResumeThread hThread ;; CloseHandle hThread ;; ret (false, bp)
      else
        let '(added, bp, ctx) := bp_add_to_ctx bp ctx in
        if negb added then
          ResumeThread hThread ;; CloseHandle hThread ;; ret (false, bp)
        else
          s <- SetThreadContext a hThread ctx ;;
          if negb s then
            ResumeThread hThread ;; CloseHandle hThread ;; ret (false, bp)
          else
            ResumeThread hThread ;; CloseHandle hThread ;;
            ret (true, set_enabled true bp).

Definition bp_disable (a : Answers) (bp : HWBP) : OS (bool * HWBP) :=
  hThread <- OpenThread a thread_access (threadId bp) ;;
  if hThread =? 0 then ret (false, bp)
  else
    r <- SuspendThread a hThread ;;
    if r =? DWORD_minus_1 then
      CloseHandle hThread ;; ret (false, bp)
    else
      let ctx := set_ContextFlags CONTEXT_DEBUG_REGISTERS CONTEXT_zero in
      g <- GetThreadContext a hThread ctx ;;
      let (got, ctx) := g in
      if negb got then
        ResumeThread hThread ;; CloseHandle hThread ;; ret (false, bp)
      else
        let '(removed, bp, ctx) := bp_remove_from_ctx bp ctx in
        if negb removed then
          ResumeThread hThread ;; CloseHandle hThread ;; ret (false, bp)
        else
          s <- SetThreadContext a hThread ctx ;;
          if negb s then
            ResumeThread hThread ;; CloseHandle hThread ;; ret (false, bp)
          else
            ResumeThread hThread ;; CloseHandle hThread ;;
            ret (true, set_enabled false bp).

(** Calls made by a computation started in [w]: what it appended. *)
Definition calls_of {A : Type} (c : OS A) (w : World) : list os_call :=
  skipn (List.length (calls w)) (calls (snd (c w))).

Definition count (c : os_call) (l : list os_call) : nat :=
  count_occ os_call_eq_dec l c.

(* ===================================================================== *)
(** ** Vocabulary of the properties *)
(* ===================================================================== *)

(** The three member writes a [case i] performs on [_dr7], by position:
    local-enable bit [2i], LEN field at [18+4i], R/W field at [16+4i]. *)
Definition write_slot (i l len rw x : Z) : Z :=
  Bitfield.set (16 + 4 * i) 2 rw
    (Bitfield.set (18 + 4 * i) 2 len
       (Bitfield.set (2 * i) 1 l x)).

(** Assignment to the address register of breakpoint [i]. *)
Definition set_DrN (i v : Z) (c : CONTEXT) : CONTEXT :=
  match i with
  | 0 => set_Dr0 v c | 1 => set_Dr1 v c | 2 => set_Dr2 v c | 3 => set_Dr3 v c
  | _ => c
  end.

(** [c'] differs from [c] at most in what breakpoint [i] owns: the bits of
    DR7 that belong to slot [i] and the address register [Dr i]. *)
Definition only_slot_changed (i : Z) (c c' : CONTEXT) : Prop :=
  (forall n, DR7.owned_by i n = false ->
             Z.testbit (Dr7 c') n = Z.testbit (Dr7 c) n) /\
  (forall j, j <> i -> DrN j c' = DrN j c) /\
  Dr6 c' = Dr6 c /\
  ContextFlags c' = ContextFlags c.

(** The descriptor invariant: no slot recorded exactly when not enabled. *)
Definition slot_iff_enabled (bp : HWBP) : Prop :=
  index bp = -1 <-> enabled bp = false.

(** Kinds of call, for counting them whatever the handle. *)
Definition is_OpenThread (c : os_call) : bool :=
  match c with call_OpenThread _ _ => true | _ => false end.
Definition is_SuspendThread (c : os_call) : bool :=
  match c with call_SuspendThread _ => true | _ => false end.
Definition is_SetThreadContext (c : os_call) : bool :=
  match c with call_SetThreadContext _ => true | _ => false end.
Definition is_ResumeThread (c : os_call) : bool :=
  match c with call_ResumeThread _ => true | _ => false end.
Definition is_CloseHandle (c : os_call) : bool :=
  match c with call_CloseHandle _ => true | _ => false end.

Definition count_kind (k : os_call -> bool) (l : list os_call) : nat :=
  List.length (filter k l).

(** The handle was obtained; the thread was suspended. *)
Definition acquired (a : Answers) : bool :=
  negb (OpenThread_returns a =? 0).

Definition suspended (a : Answers) : bool :=
  acquired a && negb (SuspendThread_returns a =? DWORD_minus_1).

(** Calls [cs] of one transaction pair up: one [OpenThread]; a
    [SuspendThread] and a [CloseHandle] exactly when the handle was
    obtained; a [ResumeThread] exactly when the thread was suspended; the
    resume and the close are made on the handle [OpenThread] returned. *)
Definition calls_balanced (a : Answers) (cs : list os_call) : Prop :=
  let h := OpenThread_returns a in
  count_kind is_OpenThread cs = 1%nat /\
  count_kind is_SuspendThread cs = (if acquired a then 1 else 0)%nat /\
  count_kind is_ResumeThread cs = (if suspended a then 1 else 0)%nat /\
  count (call_ResumeThread h) cs = (if suspended a then 1 else 0)%nat /\
  count_kind is_CloseHandle cs = (if acquired a then 1 else 0)%nat /\
  count (call_CloseHandle h) cs = (if acquired a then 1 else 0)%nat.

(** The context a transaction hands to its mutation step. *)
Definition context_read (w : World) : CONTEXT :=
  copy_debug_registers (thread w)
    (set_ContextFlags CONTEXT_DEBUG_REGISTERS CONTEXT_zero).

(** The six exits of the transaction, with the calls each one has made;
    [mutate] is the mutation step and [e] the flag stored on success. *)
Definition transaction (a : Answers)
    (mutate : HWBP -> CONTEXT -> bool * HWBP * CONTEXT) (e : bool)
    (bp : HWBP) (w : World) : bool * HWBP * World :=
  let h := OpenThread_returns a in
  let opened := call_OpenThread thread_access (threadId bp) in
  let m := mutate bp (context_read w) in
  let after cs := mkWorld (thread w) (calls w ++ cs) in
  if h =? 0 then
    (false, bp, after [opened])
  else if SuspendThread_returns a =? DWORD_minus_1 then
    (false, bp, after [opened; call_SuspendThread h; call_CloseHandle h])
  else if negb (GetThreadContext_ok a) then
    (false, bp,
     after [opened; call_SuspendThread h; call_GetThreadContext h;
            call_ResumeThread h; call_CloseHandle h])
  else if negb (fst (fst m)) then
    (false, snd (fst m),
     after [opened; call_SuspendThread h; call_GetThreadContext h;
            call_ResumeThread h; call_CloseHandle h])
  else if negb (SetThreadContext_ok a) then
    (false, snd (fst m),
     after [opened; call_SuspendThread h; call_GetThreadContext h;
            call_SetThreadContext h; call_ResumeThread h;
            call_CloseHandle h])
  else
    (true, set_enabled e (snd (fst m)),
     mkWorld (copy_debug_registers (snd m) (thread w))
             (calls w ++
              [opened; call_SuspendThread h; call_GetThreadContext h;
               call_SetThreadContext h; call_ResumeThread h;
               call_CloseHandle h])).

(** Concrete inputs used below: a descriptor as [bp_create] leaves it, a
    thread with all debug registers zero and no call made yet, primitives
    that all succeed, and primitives of which only [SetThreadContext]
    fails. *)
Definition fresh_bp : HWBP := bp_init 4096 7 DATA_WRITEONLY FOUR_BYTE.

Definition idle_world : World := mkWorld CONTEXT_zero [].

Definition all_succeed : Answers := mkAnswers 44 0 true true.

Definition write_fails : Answers := mkAnswers 44 0 true false.

(** A thread whose four slots are empty (L, R/W and LEN zero) but with
    other bits of DR7 set (G0, bit 1, and the reserved bit 10); a thread in
    which no slot is enabled but slot 0 still carries a length code
    (LEN0 = 3). *)
Definition quiet_world : World := mkWorld (mkCONTEXT 0 0 0 0 0 0 1026) [].

Definition stale_world : World := mkWorld (mkCONTEXT 0 0 0 0 0 0 786432) [].

(** No breakpoint is enabled in DR7: the local-enable and the global-enable
    bit of every slot are clear.  Nothing is said of the R/W and LEN
    fields. *)
Definition no_slot_enabled (x : Z) : bool :=
  (DR7.local_breakpoint_0 x =? 0) && (DR7.global_breakpoint_0 x =? 0) &&
  (DR7.local_breakpoint_1 x =? 0) && (DR7.global_breakpoint_1 x =? 0) &&
  (DR7.local_breakpoint_2 x =? 0) && (DR7.global_breakpoint_2 x =? 0) &&
  (DR7.local_breakpoint_3 x =? 0) && (DR7.global_breakpoint_3 x =? 0).

(** The descriptor and the thread after [fresh_bp] was enabled. *)
Definition armed_bp : HWBP :=
  snd (fst (bp_enable all_succeed fresh_bp idle_world)).

Definition armed_world : World :=
  snd (bp_enable all_succeed fresh_bp idle_world).

(** A descriptor in one of the states the design allows: a slot 0..3 or
    none. *)
Definition slot_in_range (bp : HWBP) : Prop := -1 <= index bp <= 3.

(** Every primitive that can fail answered with success. *)
Definition primitives_succeed (a : Answers) : bool :=
  suspended a && GetThreadContext_ok a && SetThreadContext_ok a.

(** The calls of one transaction on thread [tid], given whether its
    mutation step succeeds: the context is read only while the thread is
    suspended, and written only after a read and a mutation that
    succeeded. *)
Definition protocol (a : Answers) (tid : Z) (mutated : bool)
    : list os_call :=
  let h := OpenThread_returns a in
  call_OpenThread thread_access tid ::
  (if acquired a then
     call_SuspendThread h ::
     (if suspended a then
        call_GetThreadContext h ::
        (if GetThreadContext_ok a && mutated
         then [ call_SetThreadContext h ] else []) ++
        [ call_ResumeThread h ]
      else []) ++
     [ call_CloseHandle h ]
   else []).

(** The index is one of the four slots. *)
Definition slot_assigned (bp : HWBP) : bool :=
  (0 <=? index bp) && (index bp <=? 3).

(** Two descriptors ask for the same breakpoint. *)
Definition same_request (bp bp' : HWBP) : Prop :=
  target bp' = target bp /\ threadId bp' = threadId bp /\
  read_write bp' = read_write bp /\ length bp' = length bp.

(** A second descriptor, for the runs with two breakpoints. *)
Definition other_bp : HWBP := bp_init 8192 7 DATA_READWRITE TWO_BYTE.

(** A thread whose four slots are all enabled. *)
Definition full_world : World := mkWorld (mkCONTEXT 0 1 2 3 4 0 85) [].

(** The calls of one complete run with [all_succeed] on thread 7, and the
    worlds met when [fresh_bp], [other_bp], [fresh_bp] and [other_bp] are
    enabled in turn from [idle_world]. *)
Definition one_run : list os_call :=
  [ call_OpenThread 26 7; call_SuspendThread 44; call_GetThreadContext 44;
    call_SetThreadContext 44; call_ResumeThread 44; call_CloseHandle 44 ].

Definition world_1 : World :=
  mkWorld (mkCONTEXT 0 4096 0 0 0 0 851969) one_run.

Definition world_2 : World :=
  mkWorld (mkCONTEXT 0 4096 8192 0 0 0 8192005) (one_run ++ one_run).

Definition world_3 : World :=
  mkWorld (mkCONTEXT 0 4096 8192 4096 0 0 226295829)
          (one_run ++ one_run ++ one_run).

Definition world_4 : World :=
  mkWorld (mkCONTEXT 0 4096 8192 4096 8192 0 2105344085)
          (one_run ++ one_run ++ one_run ++ one_run).

Definition fresh_bp_in (i : Z) : HWBP :=
  mkHWBP 4096 7 DATA_WRITEONLY FOUR_BYTE i true.

Definition other_bp_in (i : Z) : HWBP :=
  mkHWBP 8192 7 DATA_READWRITE TWO_BYTE i true.

(* ===================================================================== *)
(** ** Bit-field reads and writes, bit by bit *)
(* ===================================================================== *)

Section BitfieldFacts.

Variables off w : Z.
Hypothesis off_nonneg : 0 <= off.
Hypothesis w_nonneg : 0 <= w.

Lemma testbit_get (x n : Z) :
  0 <= n ->
  Z.testbit (Bitfield.get off w x) n = (n <? w) && Z.testbit x (n + off).
Proof.
  intros Hn. unfold Bitfield.get.
  rewrite Z.land_spec, Z.shiftr_spec, Z.testbit_ones by lia.
  destruct (Z.leb_spec 0 n); [ | lia ].
  cbn [andb]. apply andb_comm.
Qed.

Lemma testbit_set (v x n : Z) :
  Z.testbit (Bitfield.set off w v x) n =
  if Bitfield.covers off w n then Z.testbit v (n - off) else Z.testbit x n.
Proof.
  unfold Bitfield.set, Bitfield.covers.
  destruct (Z.ltb_spec n 0) as [Hneg | Hn].
  - rewrite !Z.testbit_neg_r by lia.
    destruct (Z.leb_spec off n); [ lia | reflexivity ].
  - rewrite Z.lor_spec, Z.ldiff_spec, !Z.shiftl_spec by lia.
    rewrite Z.land_spec.
    destruct (Z.leb_spec off n) as [Hle | Hlt].
    + rewrite Z.testbit_ones by lia.
      destruct (Z.leb_spec 0 (n - off)); [ | lia ].
      destruct (Z.ltb_spec (n - off) w);
        destruct (Z.ltb_spec n (off + w)); try lia; cbn.
      * rewrite andb_false_r, andb_true_r. reflexivity.
      * rewrite andb_true_r, andb_false_r, orb_false_r. reflexivity.
    + rewrite (Z.testbit_neg_r (Z.ones w)) by lia.
      rewrite (Z.testbit_neg_r v) by lia.
      cbn. rewrite andb_true_r, orb_false_r. reflexivity.
Qed.

Lemma get_set_same (v x : Z) :
  Bitfield.get off w (Bitfield.set off w v x) = Z.land v (Z.ones w).
Proof.
  apply Z.bits_inj'; intros n Hn.
  rewrite testbit_get, testbit_set by assumption.
  rewrite Z.land_spec, Z.testbit_ones by lia.
  unfold Bitfield.covers.
  replace (n + off - off) with n by lia.
  destruct (Z.leb_spec off (n + off)); [ | lia ].
  destruct (Z.leb_spec 0 n); [ | lia ].
  destruct (Z.ltb_spec n w); destruct (Z.ltb_spec (n + off) (off + w));
    try lia; cbn; rewrite ?andb_true_r, ?andb_false_r; reflexivity.
Qed.

Lemma get_set_small (v x : Z) :
  0 <= v < 2 ^ w ->
  Bitfield.get off w (Bitfield.set off w v x) = v.
Proof.
  intros Hv. rewrite get_set_same, Z.land_ones by assumption.
  apply Z.mod_small; assumption.
Qed.

(** A field disjoint from the one written reads as before. *)
Lemma get_set_other (off' w' v x : Z) :
  0 <= off' -> 0 <= w' ->
  off' + w' <= off \/ off + w <= off' ->
  Bitfield.get off' w' (Bitfield.set off w v x) = Bitfield.get off' w' x.
Proof.
  intros Ho Hw Hd. apply Z.bits_inj'; intros n Hn.
  unfold Bitfield.get at 1 2.
  rewrite !Z.land_spec, !Z.shiftr_spec by assumption.
  rewrite testbit_set. unfold Bitfield.covers.
  rewrite Z.testbit_ones by assumption.
  destruct (Z.leb_spec 0 n); [ | lia ].
  destruct (Z.ltb_spec n w'); cbn; [ | rewrite !andb_false_r; reflexivity ].
  destruct (Z.leb_spec off (n + off'));
    destruct (Z.ltb_spec (n + off') (off + w)); try lia; reflexivity.
Qed.

Lemma get_range (x : Z) :
  0 <= Bitfield.get off w x < 2 ^ w.
Proof.
  unfold Bitfield.get. rewrite Z.land_ones by assumption.
  apply Z.mod_pos_bound. apply Z.pow_pos_nonneg; lia.
Qed.

(** A field and everything above it make up the storage from the field's
    offset upwards. *)
Lemma get_glue (top x : Z) :
  top = off + w ->
  Z.lor (Z.shiftl (Bitfield.get off w x) off)
        (Z.shiftl (Z.shiftr x top) top)
  = Z.shiftl (Z.shiftr x off) off.
Proof.
  intros ->. apply Z.bits_inj'; intros n Hn.
  rewrite Z.lor_spec, !Z.shiftl_spec by assumption.
  destruct (Z.ltb_spec n off) as [Hlo | Hhi].
  - rewrite !Z.testbit_neg_r by lia. reflexivity.
  - rewrite testbit_get by lia.
    rewrite (Z.shiftr_spec x off) by lia.
    replace (n - off + off) with n by lia.
    destruct (Z.ltb_spec (n - off) w) as [Hin | Hout]; cbn.
    + rewrite (Z.testbit_neg_r _ (n - (off + w))) by lia.
      apply orb_false_r.
    + rewrite Z.shiftr_spec by lia.
      f_equal. lia.
Qed.

(** Writing a field keeps a 64-bit value within 64 bits. *)
Lemma set_uint64 (v x : Z) :
  off + w <= 64 -> is_uint64 x -> is_uint64 (Bitfield.set off w v x).
Proof.
  unfold is_uint64, uint64_max. intros Hfit [Hx0 Hx1].
  assert (Hlo : 0 <= Bitfield.set off w v x).
  { unfold Bitfield.set. apply Z.lor_nonneg. split.
    - apply Z.ldiff_nonneg. left. assumption.
    - apply Z.shiftl_nonneg. apply Z.land_nonneg. right.
      rewrite Z.ones_equiv.
      pose proof (Z.pow_pos_nonneg 2 w). lia. }
  split; [ assumption | ].
  destruct (Z.eq_dec (Bitfield.set off w v x) 0) as [-> | Hnz]; [ lia | ].
  assert (Hlog : Z.log2 (Bitfield.set off w v x) < 64).
  { apply Z.nle_gt. intros Hge.
    pose proof (Z.bit_log2 (Bitfield.set off w v x) ltac:(lia)) as Hbit.
    rewrite testbit_set in Hbit.
    set (k := Z.log2 (Bitfield.set off w v x)) in *.
    unfold Bitfield.covers in Hbit.
    destruct (Z.leb_spec off k); destruct (Z.ltb_spec k (off + w));
      try lia; cbn in Hbit;
      rewrite (Z.bits_above_log2 x k) in Hbit; try discriminate;
      try lia;
      (destruct (Z.eq_dec x 0) as [-> | Hx];
       [ cbn; lia
       | apply Z.lt_le_trans with 64; [ | lia ];
         apply Z.log2_lt_pow2; lia ]). }
  apply Z.log2_lt_pow2 in Hlog; lia.
Qed.

End BitfieldFacts.

Lemma shift_round_0 (x : Z) : Z.shiftl (Z.shiftr x 0) 0 = x.
Proof. rewrite Z.shiftl_0_r, Z.shiftr_0_r. reflexivity. Qed.

(** The top member [reserved4] holds everything from bit 32 upwards. *)
Lemma place_top (x : Z) :
  is_uint64 x ->
  Z.shiftl (Bitfield.get 32 32 x) 32 = Z.shiftl (Z.shiftr x 32) 32.
Proof.
  unfold is_uint64, uint64_max. intros Hx. f_equal.
  unfold Bitfield.get. rewrite Z.land_ones by lia.
  apply Z.mod_small. rewrite Z.shiftr_div_pow2 by lia.
  split.
  - apply Z.div_pos; lia.
  - apply Z.div_lt_upper_bound; lia.
Qed.

(* ===================================================================== *)
(** ** The struct view of DR7 and its 64-bit value *)
(* ===================================================================== *)

Tactic Notation "glue" constr(o) constr(w) :=
  rewrite (get_glue o w) with (top := (o + w)%Z) by first [ reflexivity | lia ].

(** C3. Reading every member of the DR7 union whose [flags] holds a 64-bit
    value [x], and putting the members back at their positions, gives [x]:
    [encode (decode x) = x]. *)
Theorem encode_decode (x : Z) :
  is_uint64 x -> DR7.encode (DR7.decode x) = x.
Proof.
  intros Hx.
  unfold DR7.encode, DR7.decode, DR7.place.
  cbn [DR7.f_local_breakpoint_0 DR7.f_global_breakpoint_0
       DR7.f_local_breakpoint_1 DR7.f_global_breakpoint_1
       DR7.f_local_breakpoint_2 DR7.f_global_breakpoint_2
       DR7.f_local_breakpoint_3 DR7.f_global_breakpoint_3
       DR7.f_local_exact_breakpoint DR7.f_global_exact_breakpoint
       DR7.f_reserved1 DR7.f_restricted_transactional_memory
       DR7.f_reserved2 DR7.f_general_detect DR7.f_reserved3
       DR7.f_read_write_0 DR7.f_length_0 DR7.f_read_write_1 DR7.f_length_1
       DR7.f_read_write_2 DR7.f_length_2 DR7.f_read_write_3 DR7.f_length_3
       DR7.f_reserved4].
  unfold DR7.local_breakpoint_0, DR7.global_breakpoint_0,
    DR7.local_breakpoint_1, DR7.global_breakpoint_1,
    DR7.local_breakpoint_2, DR7.global_breakpoint_2,
    DR7.local_breakpoint_3, DR7.global_breakpoint_3,
    DR7.read_write_0, DR7.length_0, DR7.read_write_1, DR7.length_1,
    DR7.read_write_2, DR7.length_2, DR7.read_write_3, DR7.length_3,
    DR7.rd.
  cbn [fst snd
       DR7.local_breakpoint_0_at DR7.global_breakpoint_0_at
       DR7.local_breakpoint_1_at DR7.global_breakpoint_1_at
       DR7.local_breakpoint_2_at DR7.global_breakpoint_2_at
       DR7.local_breakpoint_3_at DR7.global_breakpoint_3_at
       DR7.local_exact_breakpoint_at DR7.global_exact_breakpoint_at
       DR7.reserved1_at DR7.restricted_transactional_memory_at
       DR7.reserved2_at DR7.general_detect_at DR7.reserved3_at
       DR7.read_write_0_at DR7.length_0_at DR7.read_write_1_at
       DR7.length_1_at DR7.read_write_2_at DR7.length_2_at
       DR7.read_write_3_at DR7.length_3_at DR7.reserved4_at].
  rewrite (place_top x Hx).
  glue 30 2. glue 28 2. glue 26 2. glue 24 2.
  glue 22 2. glue 20 2. glue 18 2. glue 16 2.
  glue 14 2. glue 13 1. glue 12 1. glue 11 1. glue 10 1.
  glue 9 1. glue 8 1. glue 7 1. glue 6 1. glue 5 1. glue 4 1.
  glue 3 1. glue 2 1. glue 1 1. glue 0 1.
  apply shift_round_0.
Qed.

(* ===================================================================== *)
(** ** The slot allocator *)
(* ===================================================================== *)

(** A one-bit member is the bit it sits on. *)
Lemma get_1 (off x : Z) :
  0 <= off -> Bitfield.get off 1 x = Z.b2z (Z.testbit x off).
Proof.
  intros Ho. unfold Bitfield.get.
  change (Z.ones 1) with 1.
  rewrite Z.land_ones with (n := 1) by lia.
  change (2 ^ 1) with 2.
  rewrite <- Z.bit0_mod, Z.shiftr_spec by lia.
  reflexivity.
Qed.

Lemma local_breakpoint_bit (i x : Z) :
  0 <= i <= 3 ->
  DR7.local_breakpoint i x = Z.b2z (Z.testbit x (2 * i)).
Proof.
  intros Hi.
  assert (Hc : i = 0 \/ i = 1 \/ i = 2 \/ i = 3) by lia.
  destruct Hc as [-> | [-> | [-> | ->]]]; cbn [DR7.local_breakpoint];
    unfold DR7.local_breakpoint_0, DR7.local_breakpoint_1,
      DR7.local_breakpoint_2, DR7.local_breakpoint_3, DR7.rd;
    cbn [fst snd DR7.local_breakpoint_0_at DR7.local_breakpoint_1_at
         DR7.local_breakpoint_2_at DR7.local_breakpoint_3_at];
    apply get_1; lia.
Qed.

Lemma local_breakpoint_01 (i x : Z) :
  0 <= i <= 3 ->
  DR7.local_breakpoint i x = 0 \/ DR7.local_breakpoint i x = 1.
Proof.
  intros Hi. rewrite local_breakpoint_bit by assumption.
  destruct (Z.testbit x (2 * i)); [ right | left ]; reflexivity.
Qed.

(** [get_free_index] as a scan of the four local-enable members. *)
Lemma get_free_index_scan (x : Z) :
  get_free_index x =
  if DR7.local_breakpoint 0 x =? 0 then 0
  else if DR7.local_breakpoint 1 x =? 0 then 1
  else if DR7.local_breakpoint 2 x =? 0 then 2
  else if DR7.local_breakpoint 3 x =? 0 then 3
  else -1.
Proof. reflexivity. Qed.

Lemma get_free_index_cases (x : Z) :
  (get_free_index x = 0 /\ DR7.local_breakpoint 0 x = 0) \/
  (get_free_index x = 1 /\ DR7.local_breakpoint 0 x = 1 /\
   DR7.local_breakpoint 1 x = 0) \/
  (get_free_index x = 2 /\ DR7.local_breakpoint 0 x = 1 /\
   DR7.local_breakpoint 1 x = 1 /\ DR7.local_breakpoint 2 x = 0) \/
  (get_free_index x = 3 /\ DR7.local_breakpoint 0 x = 1 /\
   DR7.local_breakpoint 1 x = 1 /\ DR7.local_breakpoint 2 x = 1 /\
   DR7.local_breakpoint 3 x = 0) \/
  (get_free_index x = -1 /\ DR7.local_breakpoint 0 x = 1 /\
   DR7.local_breakpoint 1 x = 1 /\ DR7.local_breakpoint 2 x = 1 /\
   DR7.local_breakpoint 3 x = 1).
Proof.
  rewrite get_free_index_scan.
  pose proof (local_breakpoint_01 0 x ltac:(lia)) as H0.
  pose proof (local_breakpoint_01 1 x ltac:(lia)) as H1.
  pose proof (local_breakpoint_01 2 x ltac:(lia)) as H2.
  pose proof (local_breakpoint_01 3 x ltac:(lia)) as H3.
  destruct H0 as [E0 | E0], H1 as [E1 | E1], H2 as [E2 | E2],
    H3 as [E3 | E3];
    rewrite E0, E1, E2, E3; cbn; lia.
Qed.

Lemma get_free_index_range (x : Z) :
  get_free_index x = -1 \/ 0 <= get_free_index x <= 3.
Proof.
  destruct (get_free_index_cases x)
    as [[-> _] | [[-> _] | [[-> _] | [[-> _] | [-> _]]]]]; lia.
Qed.

(** C2. [get_free_index] returns the lowest of the indices 0..3 whose
    local-enable member is 0; it returns -1 exactly when all four
    local-enable members are 1; and its result depends on nothing but the
    four local-enable bits (bits 0, 2, 4 and 6 of DR7). *)
Theorem get_free_index_lowest_free (x : Z) :
  (forall i, 0 <= i <= 3 ->
     (get_free_index x = i <->
      DR7.local_breakpoint i x = 0 /\
      forall j, 0 <= j < i -> DR7.local_breakpoint j x = 1)) /\
  (get_free_index x = -1 <->
   forall i, 0 <= i <= 3 -> DR7.local_breakpoint i x = 1) /\
  (forall y,
     (forall i, 0 <= i <= 3 -> Z.testbit y (2 * i) = Z.testbit x (2 * i)) ->
     get_free_index y = get_free_index x).
Proof.
  split; [ | split ].
  - intros i Hi.
    assert (Hc : i = 0 \/ i = 1 \/ i = 2 \/ i = 3) by lia.
    split.
    + intros Hget.
      destruct (get_free_index_cases x)
        as [[E H] | [[E H] | [[E H] | [[E H] | [E H]]]]];
        rewrite E in Hget; subst i; try lia;
        (split; [ tauto | ]);
        intros j Hj;
        assert (Hj' : j = 0 \/ j = 1 \/ j = 2) by lia;
        destruct Hj' as [-> | [-> | ->]]; try lia; tauto.
    + intros [Hfree Hlow].
      destruct (get_free_index_cases x)
        as [[E H] | [[E H] | [[E H] | [[E H] | [E H]]]]];
        rewrite E;
        destruct Hc as [-> | [-> | [-> | ->]]]; try reflexivity;
        try (exfalso; lia);
        try (pose proof (Hlow 0 ltac:(lia)); exfalso; lia);
        try (pose proof (Hlow 1 ltac:(lia)); exfalso; lia);
        try (pose proof (Hlow 2 ltac:(lia)); exfalso; lia).
  - split.
    + intros Hget i Hi.
      assert (Hc : i = 0 \/ i = 1 \/ i = 2 \/ i = 3) by lia.
      destruct (get_free_index_cases x)
        as [[E H] | [[E H] | [[E H] | [[E H] | [E H]]]]];
        rewrite E in Hget; try lia.
      destruct Hc as [-> | [-> | [-> | ->]]]; tauto.
    + intros Hall.
      destruct (get_free_index_cases x)
        as [[E H] | [[E H] | [[E H] | [[E H] | [E H]]]]];
        try assumption; exfalso.
      * pose proof (Hall 0 ltac:(lia)); lia.
      * pose proof (Hall 1 ltac:(lia)); lia.
      * pose proof (Hall 2 ltac:(lia)); lia.
      * pose proof (Hall 3 ltac:(lia)); lia.
  - intros y Hsame.
    rewrite !get_free_index_scan.
    rewrite !local_breakpoint_bit by lia.
    rewrite (Hsame 0), (Hsame 1), (Hsame 2), (Hsame 3) by lia.
    reflexivity.
Qed.

(* ===================================================================== *)
(** ** Writing one breakpoint's members *)
(* ===================================================================== *)

(** Decide one comparison of the goal, keeping the cases [lia] allows. *)
Ltac order_step :=
  match goal with
  | |- context [ (?a <=? ?b)%Z ] => destruct (Z.leb_spec a b); try lia
  | |- context [ (?a <? ?b)%Z ] => destruct (Z.ltb_spec a b); try lia
  | |- context [ (?a =? ?b)%Z ] => destruct (Z.eqb_spec a b); try lia
  end.

Ltac order_cases := repeat (order_step; cbn [andb orb negb]).

Ltac four_cases i :=
  let Hc := fresh "Hc" in
  assert (Hc : i = 0 \/ i = 1 \/ i = 2 \/ i = 3) by lia;
  destruct Hc as [-> | [-> | [-> | ->]]].

Lemma bp_add_switch_slot (i : Z) (bp : HWBP) (ctx : CONTEXT) (x : Z) :
  0 <= i <= 3 ->
  bp_add_switch i bp ctx x =
  Some (set_DrN i (target bp) ctx,
        write_slot i 1 (BP_LENGTH_value (length bp))
                   (BP_READ_WRITE_value (read_write bp)) x).
Proof. intros Hi. four_cases i; reflexivity. Qed.

Lemma bp_remove_switch_slot (i : Z) (ctx : CONTEXT) (x : Z) :
  0 <= i <= 3 ->
  bp_remove_switch i ctx x = Some (set_DrN i 0 ctx, write_slot i 0 0 0 x).
Proof. intros Hi. four_cases i; reflexivity. Qed.

Lemma bp_remove_switch_default (i : Z) (ctx : CONTEXT) (x : Z) :
  ~ 0 <= i <= 3 -> bp_remove_switch i ctx x = None.
Proof.
  intros Hi. unfold bp_remove_switch.
  destruct i as [ | p | p ]; [ lia | | reflexivity ].
  destruct p as [ [ | | ] | [ | | ] | ]; try reflexivity; lia.
Qed.

Lemma testbit_write_slot (i l len rw x n : Z) :
  0 <= i ->
  Z.testbit (write_slot i l len rw x) n =
  if Bitfield.covers (16 + 4 * i) 2 n then Z.testbit rw (n - (16 + 4 * i))
  else if Bitfield.covers (18 + 4 * i) 2 n
       then Z.testbit len (n - (18 + 4 * i))
       else if n =? 2 * i then Z.testbit l 0 else Z.testbit x n.
Proof.
  intros Hi. unfold write_slot.
  rewrite !testbit_set by lia.
  unfold Bitfield.covers.
  destruct (Z.eqb_spec n (2 * i)) as [-> | Hne].
  - replace (2 * i - 2 * i) with 0 by lia. order_cases; reflexivity.
  - order_cases; reflexivity.
Qed.

(** Bits that breakpoint [i] does not own survive the three writes. *)
Lemma write_slot_frame (i l len rw x n : Z) :
  0 <= i ->
  DR7.owned_by i n = false ->
  Z.testbit (write_slot i l len rw x) n = Z.testbit x n.
Proof.
  intros Hi Hown. rewrite testbit_write_slot by assumption.
  revert Hown. unfold DR7.owned_by, Bitfield.covers.
  order_cases; cbn; intros; try discriminate; reflexivity.
Qed.

Lemma write_slot_local_breakpoint (i l len rw x : Z) :
  0 <= i <= 3 ->
  DR7.local_breakpoint i (write_slot i l len rw x) = Z.land l (Z.ones 1).
Proof.
  intros Hi. unfold write_slot.
  four_cases i; cbn [DR7.local_breakpoint];
    unfold DR7.local_breakpoint_0, DR7.local_breakpoint_1,
      DR7.local_breakpoint_2, DR7.local_breakpoint_3, DR7.rd; cbn [fst snd];
    cbn [DR7.local_breakpoint_0_at DR7.local_breakpoint_1_at
         DR7.local_breakpoint_2_at DR7.local_breakpoint_3_at fst snd];
    rewrite !get_set_other by lia;
    apply get_set_same; lia.
Qed.

Lemma write_slot_length (i l len rw x : Z) :
  0 <= i <= 3 ->
  DR7.length i (write_slot i l len rw x) = Z.land len (Z.ones 2).
Proof.
  intros Hi. unfold write_slot.
  four_cases i; cbn [DR7.length];
    unfold DR7.length_0, DR7.length_1, DR7.length_2, DR7.length_3, DR7.rd;
    cbn [DR7.length_0_at DR7.length_1_at DR7.length_2_at DR7.length_3_at
         fst snd];
    rewrite get_set_other by lia;
    apply get_set_same; lia.
Qed.

Lemma write_slot_read_write (i l len rw x : Z) :
  0 <= i <= 3 ->
  DR7.read_write i (write_slot i l len rw x) = Z.land rw (Z.ones 2).
Proof.
  intros Hi. unfold write_slot.
  four_cases i; cbn [DR7.read_write];
    unfold DR7.read_write_0, DR7.read_write_1, DR7.read_write_2,
      DR7.read_write_3, DR7.rd;
    cbn [DR7.read_write_0_at DR7.read_write_1_at DR7.read_write_2_at
         DR7.read_write_3_at fst snd];
    apply get_set_same; lia.
Qed.

(** The two mutations in closed form. *)
Lemma bp_add_to_ctx_free (bp : HWBP) (ctx : CONTEXT) :
  0 <= get_free_index (Dr7 ctx) <= 3 ->
  bp_add_to_ctx bp ctx =
  (true,
   set_index (get_free_index (Dr7 ctx)) bp,
   set_Dr7 (write_slot (get_free_index (Dr7 ctx)) 1
              (BP_LENGTH_value (length bp))
              (BP_READ_WRITE_value (read_write bp)) (Dr7 ctx))
           (set_DrN (get_free_index (Dr7 ctx)) (target bp) ctx)).
Proof.
  intros Hi. unfold bp_add_to_ctx.
  rewrite bp_add_switch_slot by assumption.
  destruct (Z.eqb_spec (get_free_index (Dr7 ctx)) (-1)); [ lia | ].
  reflexivity.
Qed.

Lemma bp_add_to_ctx_full (bp : HWBP) (ctx : CONTEXT) :
  get_free_index (Dr7 ctx) = -1 ->
  bp_add_to_ctx bp ctx = (false, bp, ctx).
Proof. intros E. unfold bp_add_to_ctx. rewrite E. reflexivity. Qed.

Lemma bp_remove_from_ctx_assigned (bp : HWBP) (ctx : CONTEXT) :
  0 <= index bp <= 3 ->
  bp_remove_from_ctx bp ctx =
  (true,
   set_index (-1) bp,
   set_Dr7 (write_slot (index bp) 0 0 0 (Dr7 ctx))
           (set_DrN (index bp) 0 ctx)).
Proof.
  intros Hi. unfold bp_remove_from_ctx.
  rewrite bp_remove_switch_slot by assumption. reflexivity.
Qed.

Lemma bp_remove_from_ctx_unassigned (bp : HWBP) (ctx : CONTEXT) :
  ~ 0 <= index bp <= 3 ->
  bp_remove_from_ctx bp ctx = (false, set_enabled false bp, ctx).
Proof.
  intros Hi. unfold bp_remove_from_ctx.
  rewrite bp_remove_switch_default by assumption. reflexivity.
Qed.

Lemma set_DrN_other (i j v x : Z) (c : CONTEXT) :
  j <> i -> DrN j (set_Dr7 x (set_DrN i v c)) = DrN j c.
Proof.
  intros Hne. unfold DrN, set_DrN.
  destruct i as [ | [ [ | | ] | [ | | ] | ] | ];
    destruct j as [ | [ [ | | ] | [ | | ] | ] | ];
    try reflexivity; congruence.
Qed.

Lemma set_DrN_same (i v x : Z) (c : CONTEXT) :
  0 <= i <= 3 -> DrN i (set_Dr7 x (set_DrN i v c)) = v.
Proof. intros Hi. four_cases i; reflexivity. Qed.

Lemma set_DrN_rest (i v x : Z) (c : CONTEXT) :
  Dr7 (set_Dr7 x (set_DrN i v c)) = x /\
  Dr6 (set_Dr7 x (set_DrN i v c)) = Dr6 c /\
  ContextFlags (set_Dr7 x (set_DrN i v c)) = ContextFlags c.
Proof.
  unfold set_DrN.
  destruct i as [ | [ [ | | ] | [ | | ] | ] | ]; repeat split.
Qed.

Lemma only_slot_changed_write (i l len rw v : Z) (c : CONTEXT) :
  0 <= i <= 3 ->
  only_slot_changed i c
    (set_Dr7 (write_slot i l len rw (Dr7 c)) (set_DrN i v c)).
Proof.
  intros Hi. unfold only_slot_changed.
  destruct (set_DrN_rest i v (write_slot i l len rw (Dr7 c)) c)
    as (E7 & E6 & Ef).
  rewrite E7, E6, Ef. repeat split.
  - intros n Hn. apply write_slot_frame; [ lia | assumption ].
  - intros j Hj. apply set_DrN_other. assumption.
Qed.

(** C4. Claiming slot [i] in [bp_add_to_ctx] and clearing slot [i] in
    [bp_remove_from_ctx] both succeed and change nothing but what slot [i]
    owns: every bit of DR7 outside slot [i]'s local-enable bit and its R/W
    and LEN fields (other slots' bits, the global-enable bits, the reserved
    bits) keeps its value, and so do the other three address registers. *)
Theorem slot_mutations_touch_only_their_slot
    (i : Z) (bp : HWBP) (ctx : CONTEXT) :
  0 <= i <= 3 ->
  (get_free_index (Dr7 ctx) = i ->
     fst (fst (bp_add_to_ctx bp ctx)) = true /\
     only_slot_changed i ctx (snd (bp_add_to_ctx bp ctx))) /\
  (index bp = i ->
     fst (fst (bp_remove_from_ctx bp ctx)) = true /\
     only_slot_changed i ctx (snd (bp_remove_from_ctx bp ctx))).
Proof.
  intros Hi. split.
  - intros Hfree.
    rewrite bp_add_to_ctx_free by lia. cbn [fst snd].
    rewrite Hfree. split; [ reflexivity | ].
    apply only_slot_changed_write; assumption.
  - intros Hidx.
    rewrite bp_remove_from_ctx_assigned by lia. cbn [fst snd].
    rewrite Hidx. split; [ reflexivity | ].
    apply only_slot_changed_write; assumption.
Qed.

(* ===================================================================== *)
(** ** The transaction, exit by exit *)
(* ===================================================================== *)

Ltac run_os :=
  cbv beta iota zeta
      delta [transaction bind ret OpenThread SuspendThread ResumeThread
             CloseHandle GetThreadContext SetThreadContext record
             context_read];
  cbn [thread calls fst snd negb].

Ltac flatten_calls := rewrite <- ?app_assoc; cbn [app].

Lemma bp_enable_transaction (a : Answers) (bp : HWBP) (w : World) :
  bp_enable a bp w = transaction a bp_add_to_ctx true bp w.
Proof.
  unfold bp_enable. run_os.
  destruct (OpenThread_returns a =? 0); [ reflexivity | ].
  destruct (SuspendThread_returns a =? DWORD_minus_1); run_os;
    [ flatten_calls; reflexivity | ].
  destruct (GetThreadContext_ok a); run_os;
    [ | flatten_calls; reflexivity ].
  destruct (bp_add_to_ctx bp _) as [[added bp1] ctx1]; run_os.
  destruct added; run_os; [ | flatten_calls; reflexivity ].
  destruct (SetThreadContext_ok a); run_os; flatten_calls; reflexivity.
Qed.

Lemma bp_disable_transaction (a : Answers) (bp : HWBP) (w : World) :
  bp_disable a bp w = transaction a bp_remove_from_ctx false bp w.
Proof.
  unfold bp_disable. run_os.
  destruct (OpenThread_returns a =? 0); [ reflexivity | ].
  destruct (SuspendThread_returns a =? DWORD_minus_1); run_os;
    [ flatten_calls; reflexivity | ].
  destruct (GetThreadContext_ok a); run_os;
    [ | flatten_calls; reflexivity ].
  destruct (bp_remove_from_ctx bp _) as [[removed bp1] ctx1]; run_os.
  destruct removed; run_os; [ | flatten_calls; reflexivity ].
  destruct (SetThreadContext_ok a); run_os; flatten_calls; reflexivity.
Qed.

Lemma skipn_own_length {A : Type} (l cs : list A) :
  skipn (List.length l) (l ++ cs) = cs.
Proof. induction l as [ | x l IH ]; [ reflexivity | exact IH ]. Qed.

Ltac count_calls :=
  unfold count, count_kind;
  repeat first
    [ rewrite count_occ_cons_eq by reflexivity
    | rewrite count_occ_cons_neq by discriminate
    | rewrite count_occ_nil ];
  cbn; try reflexivity.

Ltac exit_calls :=
  cbn [snd calls negb andb]; rewrite skipn_own_length;
  solve [ repeat split; count_calls ].

Section TransactionCalls.

Variable a : Answers.
Variable mutate : HWBP -> CONTEXT -> bool * HWBP * CONTEXT.
Variable e : bool.
Variable bp : HWBP.
Variable w : World.

(** Whatever exit is taken, the calls made pair up. *)
Lemma transaction_balanced :
  calls_balanced a (calls_of (transaction a mutate e bp) w).
Proof.
  unfold calls_balanced, calls_of, suspended, acquired.
  cbv beta zeta delta [transaction].
  destruct (OpenThread_returns a =? 0); [ exit_calls | ].
  destruct (SuspendThread_returns a =? DWORD_minus_1); [ exit_calls | ].
  destruct (negb (GetThreadContext_ok a)); [ exit_calls | ].
  destruct (negb (fst (fst (mutate bp (context_read w)))));
    [ exit_calls | ].
  destruct (negb (SetThreadContext_ok a)); exit_calls.
Qed.

(** The thread's registers change only on the exit that succeeds. *)
Lemma transaction_failure_thread :
  fst (fst (transaction a mutate e bp w)) = false ->
  thread (snd (transaction a mutate e bp w)) = thread w.
Proof.
  cbv beta zeta delta [transaction].
  destruct (OpenThread_returns a =? 0); [ reflexivity | ].
  destruct (SuspendThread_returns a =? DWORD_minus_1); [ reflexivity | ].
  destruct (negb (GetThreadContext_ok a)); [ reflexivity | ].
  destruct (negb (fst (fst (mutate bp (context_read w)))));
    [ reflexivity | ].
  destruct (negb (SetThreadContext_ok a)); [ reflexivity | ].
  cbn [fst]. discriminate.
Qed.

(** What a successful transaction has done. *)
Lemma transaction_success :
  fst (fst (transaction a mutate e bp w)) = true ->
  fst (fst (mutate bp (context_read w))) = true /\
  snd (fst (transaction a mutate e bp w)) =
    set_enabled e (snd (fst (mutate bp (context_read w)))) /\
  thread (snd (transaction a mutate e bp w)) =
    copy_debug_registers (snd (mutate bp (context_read w))) (thread w).
Proof.
  cbv beta zeta delta [transaction].
  destruct (OpenThread_returns a =? 0); [ discriminate | ].
  destruct (SuspendThread_returns a =? DWORD_minus_1); [ discriminate | ].
  destruct (negb (GetThreadContext_ok a)); [ discriminate | ].
  destruct (fst (fst (mutate bp (context_read w)))); cbn [negb];
    [ | discriminate ].
  destruct (negb (SetThreadContext_ok a)); [ discriminate | ].
  cbn [fst snd thread]. auto.
Qed.

End TransactionCalls.

(** C1. In every run of [bp_enable] and of [bp_disable], whatever the
    primitives answer and whichever step fails: [ResumeThread] is called
    exactly once when [SuspendThread] succeeded and not at all otherwise, and
    [CloseHandle] is called exactly once when [OpenThread] returned a handle
    and not at all otherwise, both on that handle. *)
Theorem suspend_resume_and_handle_balanced
    (a : Answers) (bp : HWBP) (w : World) :
  calls_balanced a (calls_of (bp_enable a bp) w) /\
  calls_balanced a (calls_of (bp_disable a bp) w).
Proof.
  split.
  - replace (calls_of (bp_enable a bp) w)
      with (calls_of (transaction a bp_add_to_ctx true bp) w)
      by (unfold calls_of; rewrite bp_enable_transaction; reflexivity).
    apply transaction_balanced.
  - replace (calls_of (bp_disable a bp) w)
      with (calls_of (transaction a bp_remove_from_ctx false bp) w)
      by (unfold calls_of; rewrite bp_disable_transaction; reflexivity).
    apply transaction_balanced.
Qed.

(* ===================================================================== *)
(** ** What a successful enable and disable leave behind *)
(* ===================================================================== *)

Lemma bp_add_to_ctx_result (bp : HWBP) (ctx : CONTEXT) :
  fst (fst (bp_add_to_ctx bp ctx)) = true ->
  0 <= get_free_index (Dr7 ctx) <= 3.
Proof.
  intros Hok.
  destruct (get_free_index_range (Dr7 ctx)) as [E | Hr]; [ | assumption ].
  rewrite bp_add_to_ctx_full in Hok by assumption. discriminate.
Qed.

Lemma bp_remove_from_ctx_result (bp : HWBP) (ctx : CONTEXT) :
  fst (fst (bp_remove_from_ctx bp ctx)) = true -> 0 <= index bp <= 3.
Proof.
  intros Hok.
  destruct (Z_le_dec 0 (index bp)) as [H0 | H0];
    [ destruct (Z_le_dec (index bp) 3) as [H3 | H3]; [ lia | ] | ];
    rewrite bp_remove_from_ctx_unassigned in Hok by lia; discriminate.
Qed.

Lemma Dr7_context_read (w : World) : Dr7 (context_read w) = Dr7 (thread w).
Proof. reflexivity. Qed.

Lemma bp_enable_success (a : Answers) (bp : HWBP) (w : World) :
  fst (fst (bp_enable a bp w)) = true ->
  let i := get_free_index (Dr7 (thread w)) in
  0 <= i <= 3 /\
  snd (fst (bp_enable a bp w)) = set_enabled true (set_index i bp) /\
  thread (snd (bp_enable a bp w)) =
    copy_debug_registers
      (set_Dr7 (write_slot i 1 (BP_LENGTH_value (length bp))
                  (BP_READ_WRITE_value (read_write bp)) (Dr7 (thread w)))
               (set_DrN i (target bp) (context_read w)))
      (thread w).
Proof.
  rewrite bp_enable_transaction. intros Hok.
  destruct (transaction_success _ _ _ _ _ Hok) as (Hm & Hbp & Hth).
  pose proof (bp_add_to_ctx_result _ _ Hm) as Hi.
  rewrite Dr7_context_read in Hi.
  rewrite Hbp, Hth.
  rewrite bp_add_to_ctx_free by (rewrite Dr7_context_read; assumption).
  rewrite Dr7_context_read. cbn [fst snd]. auto.
Qed.

Lemma bp_disable_success (a : Answers) (bp : HWBP) (w : World) :
  fst (fst (bp_disable a bp w)) = true ->
  0 <= index bp <= 3 /\
  snd (fst (bp_disable a bp w)) = set_enabled false (set_index (-1) bp) /\
  thread (snd (bp_disable a bp w)) =
    copy_debug_registers
      (set_Dr7 (write_slot (index bp) 0 0 0 (Dr7 (thread w)))
               (set_DrN (index bp) 0 (context_read w)))
      (thread w).
Proof.
  rewrite bp_disable_transaction. intros Hok.
  destruct (transaction_success _ _ _ _ _ Hok) as (Hm & Hbp & Hth).
  pose proof (bp_remove_from_ctx_result _ _ Hm) as Hi.
  rewrite Hbp, Hth.
  rewrite bp_remove_from_ctx_assigned by assumption.
  rewrite Dr7_context_read. cbn [fst snd]. auto.
Qed.

Lemma Dr7_copied (src dst : CONTEXT) :
  Dr7 (copy_debug_registers src dst) = Dr7 src.
Proof. reflexivity. Qed.

Lemma DrN_copied (i : Z) (src dst : CONTEXT) :
  DrN i (copy_debug_registers src dst) = DrN i src.
Proof. destruct i as [ | [ [ | | ] | [ | | ] | ] | ]; reflexivity. Qed.

Lemma BP_LENGTH_value_fits (l : BP_LENGTH) :
  Z.land (BP_LENGTH_value l) (Z.ones 2) = BP_LENGTH_value l.
Proof. destruct l; reflexivity. Qed.

Lemma BP_READ_WRITE_value_fits (rw : BP_READ_WRITE) :
  Z.land (BP_READ_WRITE_value rw) (Z.ones 2) = BP_READ_WRITE_value rw.
Proof. destruct rw; reflexivity. Qed.

(** C10. [get_free_index] returns -1, 0, 1, 2 or 3; so once -1 is excluded
    the [switch] of [bp_add_to_ctx] never reaches its [default] branch; and
    when [bp_add_to_ctx] succeeds the index it records is one of 0..3, is the
    index the allocator returned, and names the slot whose address register
    holds the descriptor's target and whose local-enable member is 1. *)
Theorem added_slot_is_the_free_one (bp : HWBP) (ctx : CONTEXT) :
  (get_free_index (Dr7 ctx) = -1 \/ 0 <= get_free_index (Dr7 ctx) <= 3) /\
  (get_free_index (Dr7 ctx) <> -1 ->
   bp_add_switch (get_free_index (Dr7 ctx)) bp ctx (Dr7 ctx) <> None) /\
  (fst (fst (bp_add_to_ctx bp ctx)) = true ->
   let bp' := snd (fst (bp_add_to_ctx bp ctx)) in
   let ctx' := snd (bp_add_to_ctx bp ctx) in
   0 <= index bp' <= 3 /\
   index bp' = get_free_index (Dr7 ctx) /\
   DrN (index bp') ctx' = target bp /\
   DR7.local_breakpoint (index bp') (Dr7 ctx') = 1).
Proof.
  split; [ apply get_free_index_range | split ].
  - intros Hne.
    destruct (get_free_index_range (Dr7 ctx)) as [E | Hr]; [ contradiction | ].
    rewrite bp_add_switch_slot by assumption. discriminate.
  - intros Hok. pose proof (bp_add_to_ctx_result _ _ Hok) as Hi.
    rewrite bp_add_to_ctx_free by assumption.
    cbv zeta. cbn [fst snd index set_index].
    repeat split; try lia.
    + apply set_DrN_same; assumption.
    + destruct (set_DrN_rest (get_free_index (Dr7 ctx)) (target bp)
                  (write_slot (get_free_index (Dr7 ctx)) 1
                     (BP_LENGTH_value (length bp))
                     (BP_READ_WRITE_value (read_write bp)) (Dr7 ctx)) ctx)
        as (E7 & _).
      rewrite E7, write_slot_local_breakpoint by assumption.
      reflexivity.
Qed.

(** C9. The length enumerators carry the hardware codes 1 byte -> 0,
    2 bytes -> 1, 8 bytes -> 2, 4 bytes -> 3, and a successful [bp_enable]
    leaves exactly the descriptor's code in the LEN field of the slot it
    recorded, in the thread's DR7. *)
Theorem length_code_in_claimed_slot :
  (BP_LENGTH_bytes ONE_BYTE = 1 /\ BP_LENGTH_value ONE_BYTE = 0) /\
  (BP_LENGTH_bytes TWO_BYTE = 2 /\ BP_LENGTH_value TWO_BYTE = 1) /\
  (BP_LENGTH_bytes EIGHT_BYTE = 8 /\ BP_LENGTH_value EIGHT_BYTE = 2) /\
  (BP_LENGTH_bytes FOUR_BYTE = 4 /\ BP_LENGTH_value FOUR_BYTE = 3) /\
  forall (a : Answers) (bp : HWBP) (w : World),
    fst (fst (bp_enable a bp w)) = true ->
    DR7.length (index (snd (fst (bp_enable a bp w))))
               (Dr7 (thread (snd (bp_enable a bp w))))
    = BP_LENGTH_value (length bp).
Proof.
  repeat (split; [ split; reflexivity | ]).
  intros a bp w Hok.
  destruct (bp_enable_success a bp w Hok) as (Hi & Hbp & Hth).
  rewrite Hbp, Hth, Dr7_copied.
  cbn [index set_enabled set_index].
  destruct (set_DrN_rest (get_free_index (Dr7 (thread w))) (target bp)
              (write_slot (get_free_index (Dr7 (thread w))) 1
                 (BP_LENGTH_value (length bp))
                 (BP_READ_WRITE_value (read_write bp)) (Dr7 (thread w)))
              (context_read w)) as (E7 & _).
  rewrite E7, write_slot_length by assumption.
  apply BP_LENGTH_value_fits.
Qed.

(* ===================================================================== *)
(** ** Enable followed by disable *)
(* ===================================================================== *)

Lemma read_write_at_slot (i x : Z) :
  0 <= i <= 3 -> DR7.read_write i x = Bitfield.get (16 + 4 * i) 2 x.
Proof. intros Hi. four_cases i; reflexivity. Qed.

Lemma length_at_slot (i x : Z) :
  0 <= i <= 3 -> DR7.length i x = Bitfield.get (18 + 4 * i) 2 x.
Proof. intros Hi. four_cases i; reflexivity. Qed.

(** A field that reads 0 has all its bits clear. *)
Lemma get_0_bits (off w x n : Z) :
  0 <= off -> 0 <= w ->
  Bitfield.get off w x = 0 ->
  Bitfield.covers off w n = true ->
  Z.testbit x n = false.
Proof.
  intros Ho Hw Hz Hc. unfold Bitfield.covers in Hc.
  apply andb_true_iff in Hc. destruct Hc as [H1 H2].
  apply Z.leb_le in H1. apply Z.ltb_lt in H2.
  assert (Hb : Z.testbit (Bitfield.get off w x) (n - off) =
               (n - off <? w) && Z.testbit x (n - off + off))
    by (apply testbit_get; lia).
  rewrite Hz, Z.testbit_0_l in Hb.
  replace (n - off + off) with n in Hb by lia.
  destruct (Z.ltb_spec (n - off) w); [ | lia ].
  cbn in Hb. symmetry. exact Hb.
Qed.

Lemma slot_empty_bits (i x n : Z) :
  0 <= i <= 3 ->
  DR7.slot_empty i x = true ->
  DR7.owned_by i n = true ->
  Z.testbit x n = false.
Proof.
  intros Hi He Hown. unfold DR7.slot_empty in He.
  apply andb_true_iff in He. destruct He as [He Hlen].
  apply andb_true_iff in He. destruct He as [Hl Hrw].
  apply Z.eqb_eq in Hl, Hrw, Hlen.
  rewrite local_breakpoint_bit in Hl by assumption.
  rewrite read_write_at_slot in Hrw by assumption.
  rewrite length_at_slot in Hlen by assumption.
  unfold DR7.owned_by in Hown.
  destruct (Z.eqb_spec n (2 * i)) as [-> | Hne].
  - destruct (Z.testbit x (2 * i)); [ discriminate | reflexivity ].
  - cbn [orb] in Hown.
    apply andb_true_iff in Hown. destruct Hown as [H1 H2].
    apply Z.leb_le in H1. apply Z.ltb_lt in H2.
    destruct (Z_lt_dec n (18 + 4 * i)).
    + apply (get_0_bits (16 + 4 * i) 2 x n); try lia; try assumption.
      unfold Bitfield.covers. order_cases; reflexivity.
    + apply (get_0_bits (18 + 4 * i) 2 x n); try lia; try assumption.
      unfold Bitfield.covers. order_cases; reflexivity.
Qed.

(** Clearing a slot that was claimed gives back a DR7 whose slot was
    empty. *)
Lemma write_slot_clear_restores (i l len rw x : Z) :
  0 <= i <= 3 ->
  DR7.slot_empty i x = true ->
  write_slot i 0 0 0 (write_slot i l len rw x) = x.
Proof.
  intros Hi He. apply Z.bits_inj'; intros n Hn.
  destruct (DR7.owned_by i n) eqn:Hown.
  - rewrite (slot_empty_bits i x n Hi He Hown).
    rewrite testbit_write_slot by lia.
    rewrite !Z.testbit_0_l.
    revert Hown. unfold DR7.owned_by, Bitfield.covers.
    order_cases; cbn; intros; try discriminate; reflexivity.
  - rewrite !write_slot_frame by (assumption || lia). reflexivity.
Qed.

Lemma all_slots_empty_slot_0 (x : Z) :
  DR7.all_slots_empty x = true ->
  get_free_index x = 0 /\ DR7.slot_empty 0 x = true.
Proof.
  unfold DR7.all_slots_empty. intros H.
  apply andb_true_iff in H. destruct H as [H _].
  apply andb_true_iff in H. destruct H as [H _].
  apply andb_true_iff in H. destruct H as [H _].
  split; [ | assumption ].
  unfold DR7.slot_empty in H.
  apply andb_true_iff in H. destruct H as [H _].
  apply andb_true_iff in H. destruct H as [H _].
  rewrite get_free_index_scan, H. reflexivity.
Qed.

(** C8, amended.  On a thread in whose DR7 every slot has its local-enable
    bit clear and its R/W and LEN fields zero (any other bit may be set), a
    successful [bp_enable] followed by a successful [bp_disable] of the same
    descriptor leaves the thread's DR7 at its original value. *)
Theorem enable_then_disable_restores_dr7
    (a1 a2 : Answers) (bp bp1 bp2 : HWBP) (w w1 w2 : World) :
  DR7.all_slots_empty (Dr7 (thread w)) = true ->
  bp_enable a1 bp w = (true, bp1, w1) ->
  bp_disable a2 bp1 w1 = (true, bp2, w2) ->
  Dr7 (thread w2) = Dr7 (thread w).
Proof.
  intros Hnone Hen Hdis.
  destruct (all_slots_empty_slot_0 _ Hnone) as [Hfree Hempty].
  assert (Hen_ok : fst (fst (bp_enable a1 bp w)) = true)
    by (rewrite Hen; reflexivity).
  destruct (bp_enable_success a1 bp w Hen_ok) as (_ & Hbp1 & Hw1).
  rewrite Hen in Hbp1, Hw1. cbn [fst snd] in Hbp1, Hw1.
  rewrite Hfree in Hbp1, Hw1.
  assert (Hdis_ok : fst (fst (bp_disable a2 bp1 w1)) = true)
    by (rewrite Hdis; reflexivity).
  destruct (bp_disable_success a2 bp1 w1 Hdis_ok) as (_ & _ & Hw2).
  rewrite Hdis in Hw2. cbn [fst snd] in Hw2.
  rewrite Hw2, Dr7_copied.
  destruct (set_DrN_rest (index bp1) 0
              (write_slot (index bp1) 0 0 0 (Dr7 (thread w1)))
              (context_read w1)) as (E7 & _).
  rewrite E7, Hw1, Dr7_copied.
  destruct (set_DrN_rest 0 (target bp)
              (write_slot 0 1 (BP_LENGTH_value (length bp))
                 (BP_READ_WRITE_value (read_write bp)) (Dr7 (thread w)))
              (context_read w)) as (E7' & _).
  rewrite E7', Hbp1. cbn [index set_enabled set_index].
  apply write_slot_clear_restores; [ lia | assumption ].
Qed.

Lemma enable_then_disable_restores_dr7_witness :
  DR7.all_slots_empty (Dr7 (thread quiet_world)) = true /\
  Dr7 (thread (snd (bp_disable all_succeed
                      (snd (fst (bp_enable all_succeed fresh_bp quiet_world)))
                      (snd (bp_enable all_succeed fresh_bp quiet_world)))))
  = 1026.
Proof.
  split; [ reflexivity | ].
  apply (enable_then_disable_restores_dr7 all_succeed all_succeed fresh_bp
           (snd (fst (bp_enable all_succeed fresh_bp quiet_world)))
           (snd (fst (bp_disable all_succeed
                        (snd (fst (bp_enable all_succeed fresh_bp
                                     quiet_world)))
                        (snd (bp_enable all_succeed fresh_bp quiet_world)))))
           quiet_world
           (snd (bp_enable all_succeed fresh_bp quiet_world))).
  - reflexivity.
  - reflexivity.
  - reflexivity.
Defined.

(** C8 as stated fails.  The thread of [stale_world] contains no
    breakpoint: no local-enable or global-enable bit is set and the four
    address registers are 0; DR7 is 0xC0000, the length code 3 left in the
    free slot 0.  [bp_enable] and then [bp_disable] of a fresh descriptor
    both succeed, and DR7 ends at 0, not at its original value: enable
    overwrites the fields of the slot it claims and disable zeroes them. *)
Lemma stale_length_code_is_not_restored :
  no_slot_enabled (Dr7 (thread stale_world)) = true /\
  (Dr0 (thread stale_world) = 0 /\ Dr1 (thread stale_world) = 0 /\
   Dr2 (thread stale_world) = 0 /\ Dr3 (thread stale_world) = 0) /\
  Dr7 (thread stale_world) = 786432 /\
  fst (fst (bp_enable all_succeed fresh_bp stale_world)) = true /\
  fst (fst (bp_disable all_succeed
              (snd (fst (bp_enable all_succeed fresh_bp stale_world)))
              (snd (bp_enable all_succeed fresh_bp stale_world)))) = true /\
  Dr7 (thread (snd (bp_disable all_succeed
                      (snd (fst (bp_enable all_succeed fresh_bp stale_world)))
                      (snd (bp_enable all_succeed fresh_bp stale_world)))))
  = 0 /\
  Dr7 (thread (snd (bp_disable all_succeed
                      (snd (fst (bp_enable all_succeed fresh_bp stale_world)))
                      (snd (bp_enable all_succeed fresh_bp stale_world)))))
  <> Dr7 (thread stale_world).
Proof.
  repeat split. discriminate.
Qed.

(* ===================================================================== *)
(** ** The descriptor across failures *)
(* ===================================================================== *)

(** Where a failed [bp_enable] leaves the descriptor: untouched, except
    when the failing step is [SetThreadContext], which comes after
    [bp_add_to_ctx] has stored the slot in [bp->index]. *)
Lemma bp_enable_failure_descriptor (a : Answers) (bp : HWBP) (w : World) :
  fst (fst (bp_enable a bp w)) = false ->
  snd (fst (bp_enable a bp w)) = bp \/
  (SetThreadContext_ok a = false /\
   0 <= get_free_index (Dr7 (thread w)) <= 3 /\
   snd (fst (bp_enable a bp w)) =
     set_index (get_free_index (Dr7 (thread w))) bp).
Proof.
  rewrite bp_enable_transaction.
  cbv beta zeta delta [transaction].
  destruct (OpenThread_returns a =? 0); [ left; reflexivity | ].
  destruct (SuspendThread_returns a =? DWORD_minus_1);
    [ left; reflexivity | ].
  destruct (negb (GetThreadContext_ok a)); [ left; reflexivity | ].
  destruct (get_free_index_range (Dr7 (context_read w))) as [E | Hr].
  - rewrite bp_add_to_ctx_full by assumption. cbn [fst snd negb].
    left; reflexivity.
  - rewrite bp_add_to_ctx_free by assumption. cbn [fst snd negb].
    rewrite Dr7_context_read in *.
    destruct (SetThreadContext_ok a); cbn [negb fst snd].
    + discriminate.
    + intros _. right. auto.
Qed.

(** C5, at the input where it fails.  [OpenThread], [SuspendThread] and
    [GetThreadContext] succeed, slot 0 is free, [SetThreadContext] fails:
    [bp_enable] returns FALSE and the descriptor, whose index was -1, now
    has index 0. *)
Theorem enable_write_failure_records_slot :
  fst (fst (bp_enable write_fails fresh_bp idle_world)) = false /\
  index fresh_bp = -1 /\
  index (snd (fst (bp_enable write_fails fresh_bp idle_world))) = 0 /\
  thread (snd (bp_enable write_fails fresh_bp idle_world))
    = thread idle_world.
Proof. repeat split. Qed.

Lemma bp_init_slot_iff_enabled
    (lpTarget tid : Z) (rw : BP_READ_WRITE) (len : BP_LENGTH) :
  slot_iff_enabled (bp_init lpTarget tid rw len).
Proof. unfold slot_iff_enabled, bp_init. cbn. tauto. Qed.

Lemma bp_create_slot_iff_enabled
    (ok : bool) (lpTarget tid : Z) (rw : BP_READ_WRITE) (len : BP_LENGTH)
    (bp : HWBP) :
  bp_create ok lpTarget tid rw len = Some bp ->
  slot_iff_enabled bp /\ index bp = -1 /\ enabled bp = false.
Proof.
  unfold bp_create. destruct ok; [ | discriminate ].
  intros E. injection E as <-.
  split; [ apply bp_init_slot_iff_enabled | split; reflexivity ].
Qed.

(** With a [SetThreadContext] that succeeds, [bp_enable] keeps the
    invariant on every exit. *)
Lemma bp_enable_slot_iff_enabled (a : Answers) (bp : HWBP) (w : World) :
  SetThreadContext_ok a = true ->
  slot_iff_enabled bp ->
  slot_iff_enabled (snd (fst (bp_enable a bp w))).
Proof.
  intros Hset Hinv.
  destruct (fst (fst (bp_enable a bp w))) eqn:Hres.
  - destruct (bp_enable_success a bp w Hres) as (Hi & Hbp & _).
    rewrite Hbp. unfold slot_iff_enabled. cbn.
    split; [ lia | discriminate ].
  - destruct (bp_enable_failure_descriptor a bp w Hres)
      as [-> | (Hno & _)]; [ assumption | congruence ].
Qed.

(** C7, at the input where it fails: the descriptor satisfies "index is -1
    iff not enabled" before [bp_enable], and after the run in which only
    [SetThreadContext] fails it has index 0 while still not enabled. *)
Theorem enable_write_failure_breaks_invariant :
  slot_iff_enabled fresh_bp /\
  index (snd (fst (bp_enable write_fails fresh_bp idle_world))) = 0 /\
  enabled (snd (fst (bp_enable write_fails fresh_bp idle_world))) = false /\
  ~ slot_iff_enabled (snd (fst (bp_enable write_fails fresh_bp idle_world))).
Proof.
  split; [ apply bp_init_slot_iff_enabled | ].
  split; [ reflexivity | split; [ reflexivity | ] ].
  unfold slot_iff_enabled. intros [_ H].
  specialize (H eq_refl). discriminate H.
Qed.

(** The same early store on the way back: when only [SetThreadContext]
    fails, [bp_disable] returns FALSE with index -1 on a descriptor that is
    still enabled, and the thread keeps the breakpoint. *)
Lemma disable_write_failure_breaks_invariant :
  slot_iff_enabled armed_bp /\
  fst (fst (bp_disable write_fails armed_bp armed_world)) = false /\
  index (snd (fst (bp_disable write_fails armed_bp armed_world))) = -1 /\
  enabled (snd (fst (bp_disable write_fails armed_bp armed_world))) = true /\
  thread (snd (bp_disable write_fails armed_bp armed_world))
    = thread armed_world.
Proof.
  split; [ | repeat split ].
  unfold slot_iff_enabled. cbn. split; [ lia | discriminate ].
Qed.

(* ===================================================================== *)
(** ** Disable on a descriptor without a slot *)
(* ===================================================================== *)

(** C6 as stated fails: with index -1, [bp_disable] has opened the thread,
    suspended it and read its context before it returns FALSE. *)
Lemma disable_unassigned_suspends_first :
  index fresh_bp = -1 /\
  fst (fst (bp_disable all_succeed fresh_bp idle_world)) = false /\
  calls_of (bp_disable all_succeed fresh_bp) idle_world =
    [ call_OpenThread 26 7; call_SuspendThread 44; call_GetThreadContext 44;
      call_ResumeThread 44; call_CloseHandle 44 ].
Proof. repeat split. Qed.

Lemma transaction_calls (a : Answers)
    (mutate : HWBP -> CONTEXT -> bool * HWBP * CONTEXT) (e : bool)
    (bp : HWBP) (w : World) :
  fst (fst (mutate bp (context_read w))) = false ->
  let h := OpenThread_returns a in
  count_kind is_SetThreadContext
    (calls_of (transaction a mutate e bp) w) = 0%nat /\
  (suspended a = true -> GetThreadContext_ok a = true ->
   calls_of (transaction a mutate e bp) w =
     [ call_OpenThread thread_access (threadId bp); call_SuspendThread h;
       call_GetThreadContext h; call_ResumeThread h; call_CloseHandle h ] /\
   snd (fst (transaction a mutate e bp w)) =
     snd (fst (mutate bp (context_read w)))).
Proof.
  intros Hm. unfold calls_of, suspended, acquired.
  cbv beta zeta delta [transaction]. rewrite Hm.
  destruct (OpenThread_returns a =? 0);
    [ cbn [snd calls negb andb]; rewrite skipn_own_length;
      split; [ reflexivity | discriminate ] | ].
  destruct (SuspendThread_returns a =? DWORD_minus_1);
    [ cbn [snd calls negb andb]; rewrite skipn_own_length;
      split; [ reflexivity | discriminate ] | ].
  destruct (GetThreadContext_ok a);
    cbn [fst snd calls negb andb]; rewrite skipn_own_length;
    (split; [ reflexivity | ]).
  - intros _ _. split; reflexivity.
  - discriminate.
Qed.

(** C6, amended.  With no slot recorded (index -1) [bp_disable] returns
    FALSE, never calls [SetThreadContext], leaves the thread's registers and
    the index as they were; but it is not immediate: [OpenThread] is called
    first, and when the thread is suspended and its context read the run is
    open, suspend, read, resume, close, and the descriptor's [enabled] ends
    FALSE.  With a slot 0..3 recorded, a successful [bp_disable] leaves
    index -1 and [enabled] FALSE. *)
Theorem disable_unassigned_fails_inside_transaction
    (a : Answers) (bp : HWBP) (w : World) :
  (index bp = -1 ->
     fst (fst (bp_disable a bp w)) = false /\
     thread (snd (bp_disable a bp w)) = thread w /\
     index (snd (fst (bp_disable a bp w))) = -1 /\
     count_kind is_SetThreadContext (calls_of (bp_disable a bp) w) = 0%nat /\
     count_kind is_OpenThread (calls_of (bp_disable a bp) w) = 1%nat /\
     (suspended a = true -> GetThreadContext_ok a = true ->
      calls_of (bp_disable a bp) w =
        [ call_OpenThread thread_access (threadId bp);
          call_SuspendThread (OpenThread_returns a);
          call_GetThreadContext (OpenThread_returns a);
          call_ResumeThread (OpenThread_returns a);
          call_CloseHandle (OpenThread_returns a) ] /\
      enabled (snd (fst (bp_disable a bp w))) = false)) /\
  (0 <= index bp <= 3 ->
     fst (fst (bp_disable a bp w)) = true ->
     index (snd (fst (bp_disable a bp w))) = -1 /\
     enabled (snd (fst (bp_disable a bp w))) = false).
Proof.
  split.
  - intros Hidx.
    assert (Hm : bp_remove_from_ctx bp (context_read w) =
                 (false, set_enabled false bp, context_read w))
      by (apply bp_remove_from_ctx_unassigned; lia).
    assert (Hfail : fst (fst (bp_disable a bp w)) = false).
    { destruct (fst (fst (bp_disable a bp w))) eqn:Hres; [ | reflexivity ].
      destruct (bp_disable_success a bp w Hres) as (Hi & _). lia. }
    assert (Hcalls : calls_of (bp_disable a bp) w =
                     calls_of (transaction a bp_remove_from_ctx false bp) w)
      by (unfold calls_of; rewrite bp_disable_transaction; reflexivity).
    destruct (transaction_calls a bp_remove_from_ctx false bp w
                ltac:(rewrite Hm; reflexivity)) as (Hset & Hrun).
    destruct (transaction_balanced a bp_remove_from_ctx false bp w)
      as (Hopen & _).
    rewrite Hcalls.
    split; [ assumption | ].
    split; [ rewrite bp_disable_transaction in *;
             apply transaction_failure_thread; assumption | ].
    split.
    { rewrite bp_disable_transaction.
      cbv beta zeta delta [transaction]. rewrite Hm. cbn [fst snd negb].
      destruct (OpenThread_returns a =? 0); [ assumption | ].
      destruct (SuspendThread_returns a =? DWORD_minus_1); [ assumption | ].
      destruct (negb (GetThreadContext_ok a)); assumption. }
    split; [ assumption | ].
    split; [ assumption | ].
    intros Hs Hg. destruct (Hrun Hs Hg) as (Hlist & Hbp).
    split; [ assumption | ].
    rewrite bp_disable_transaction, Hbp, Hm. reflexivity.
  - intros _ Hok.
    destruct (bp_disable_success a bp w Hok) as (_ & Hbp & _).
    rewrite Hbp. split; reflexivity.
Qed.

Lemma disable_unassigned_fails_inside_transaction_witness :
  (index fresh_bp = -1 /\
   fst (fst (bp_disable all_succeed fresh_bp idle_world)) = false /\
   thread (snd (bp_disable all_succeed fresh_bp idle_world))
     = thread idle_world) /\
  (0 <= index armed_bp <= 3 /\
   fst (fst (bp_disable all_succeed armed_bp armed_world)) = true /\
   index (snd (fst (bp_disable all_succeed armed_bp armed_world))) = -1 /\
   enabled (snd (fst (bp_disable all_succeed armed_bp armed_world)))
     = false).
Proof.
  split.
  - split; [ reflexivity | ].
    destruct (proj1 (disable_unassigned_fails_inside_transaction
                       all_succeed fresh_bp idle_world) eq_refl)
      as (Hfail & Hthread & _).
    split; assumption.
  - assert (Hin : 0 <= index armed_bp <= 3) by (cbn; lia).
    split; [ exact Hin | ].
    split; [ reflexivity | ].
    apply (proj2 (disable_unassigned_fails_inside_transaction
                    all_succeed armed_bp armed_world) Hin eq_refl).
Defined.

(** Where a failed [bp_disable] leaves the descriptor. *)
Lemma bp_disable_failure_descriptor (a : Answers) (bp : HWBP) (w : World) :
  fst (fst (bp_disable a bp w)) = false ->
  snd (fst (bp_disable a bp w)) = bp \/
  (~ 0 <= index bp <= 3 /\
   snd (fst (bp_disable a bp w)) = set_enabled false bp) \/
  (SetThreadContext_ok a = false /\ 0 <= index bp <= 3 /\
   snd (fst (bp_disable a bp w)) = set_index (-1) bp).
Proof.
  rewrite bp_disable_transaction.
  cbv beta zeta delta [transaction].
  destruct (OpenThread_returns a =? 0); [ left; reflexivity | ].
  destruct (SuspendThread_returns a =? DWORD_minus_1);
    [ left; reflexivity | ].
  destruct (negb (GetThreadContext_ok a)); [ left; reflexivity | ].
  destruct (Z_le_dec 0 (index bp)) as [H0 | H0];
    [ destruct (Z_le_dec (index bp) 3) as [H3 | H3] | ].
  - rewrite bp_remove_from_ctx_assigned by lia. cbn [fst snd negb].
    destruct (SetThreadContext_ok a); cbn [negb fst snd].
    + discriminate.
    + intros _. right; right. repeat split; lia.
  - rewrite bp_remove_from_ctx_unassigned by lia. cbn [fst snd negb].
    intros _. right; left. split; [ lia | reflexivity ].
  - rewrite bp_remove_from_ctx_unassigned by lia. cbn [fst snd negb].
    intros _. right; left. split; [ lia | reflexivity ].
Qed.

(** With a [SetThreadContext] that succeeds, [bp_disable] keeps the
    invariant on every exit, for a descriptor whose index is -1 or 0..3. *)
Lemma bp_disable_slot_iff_enabled (a : Answers) (bp : HWBP) (w : World) :
  SetThreadContext_ok a = true ->
  slot_in_range bp ->
  slot_iff_enabled bp ->
  slot_iff_enabled (snd (fst (bp_disable a bp w))).
Proof.
  intros Hset Hrange Hinv. unfold slot_in_range in Hrange.
  destruct (fst (fst (bp_disable a bp w))) eqn:Hres.
  - destruct (bp_disable_success a bp w Hres) as (_ & Hbp & _).
    rewrite Hbp. unfold slot_iff_enabled. cbn. tauto.
  - destruct (bp_disable_failure_descriptor a bp w Hres)
      as [-> | [(Hout & ->) | (Hno & _)]];
      [ assumption | | congruence ].
    unfold slot_iff_enabled. cbn. split; [ reflexivity | lia ].
Qed.

(** The mutations keep DR7 a 64-bit value. *)
Lemma write_slot_uint64 (i l len rw x : Z) :
  0 <= i <= 3 -> is_uint64 x -> is_uint64 (write_slot i l len rw x).
Proof.
  intros Hi Hx. unfold write_slot.
  repeat (apply set_uint64; try lia). assumption.
Qed.

(* ===================================================================== *)
(** ** Concrete instances *)
(* ===================================================================== *)

(** The all-ones register survives decoding and re-encoding. *)
Lemma encode_decode_witness :
  is_uint64 18446744073709551615 /\
  DR7.encode (DR7.decode 18446744073709551615) = 18446744073709551615.
Proof.
  assert (H : is_uint64 18446744073709551615)
    by (unfold is_uint64, uint64_max; lia).
  split; [ exact H | apply (encode_decode 18446744073709551615 H) ].
Defined.

(** DR7 = 21 has L0, L1, L2 set and L3 clear; DR7 = 85 has all four set. *)
Lemma get_free_index_lowest_free_witness :
  get_free_index 21 = 3 /\ get_free_index 85 = -1.
Proof.
  split.
  - apply (proj2 (proj1 (get_free_index_lowest_free 21) 3 ltac:(lia))).
    split; [ reflexivity | ].
    intros j Hj.
    assert (Hc : j = 0 \/ j = 1 \/ j = 2) by lia.
    destruct Hc as [-> | [-> | ->]]; reflexivity.
  - apply (proj2 (proj1 (proj2 (get_free_index_lowest_free 85)))).
    intros i Hi.
    assert (Hc : i = 0 \/ i = 1 \/ i = 2 \/ i = 3) by lia.
    destruct Hc as [-> | [-> | [-> | ->]]]; reflexivity.
Defined.

(** Slot 0 claimed on a DR7 with G0 and bit 10 set, then cleared again. *)
Lemma slot_mutations_touch_only_their_slot_witness :
  (get_free_index (Dr7 (thread quiet_world)) = 0 /\
   only_slot_changed 0 (thread quiet_world)
     (snd (bp_add_to_ctx fresh_bp (thread quiet_world)))) /\
  (index armed_bp = 0 /\
   only_slot_changed 0 (thread armed_world)
     (snd (bp_remove_from_ctx armed_bp (thread armed_world)))).
Proof.
  assert (H0 : 0 <= 0 <= 3) by lia.
  split.
  - split; [ reflexivity | ].
    apply (proj1 (slot_mutations_touch_only_their_slot
                    0 fresh_bp (thread quiet_world) H0) eq_refl).
  - split; [ reflexivity | ].
    apply (proj2 (slot_mutations_touch_only_their_slot
                    0 armed_bp (thread armed_world) H0) eq_refl).
Defined.

(** A write-only, four-byte breakpoint on an idle thread: LEN0 becomes 3. *)
Lemma length_code_in_claimed_slot_witness :
  fst (fst (bp_enable all_succeed fresh_bp idle_world)) = true /\
  DR7.length (index (snd (fst (bp_enable all_succeed fresh_bp idle_world))))
             (Dr7 (thread (snd (bp_enable all_succeed fresh_bp idle_world))))
  = 3.
Proof.
  split; [ reflexivity | ].
  apply (proj2 (proj2 (proj2 (proj2 length_code_in_claimed_slot)))
           all_succeed fresh_bp idle_world eq_refl).
Defined.

Lemma added_slot_is_the_free_one_witness :
  fst (fst (bp_add_to_ctx fresh_bp (thread quiet_world))) = true /\
  index (snd (fst (bp_add_to_ctx fresh_bp (thread quiet_world)))) = 0 /\
  DrN 0 (snd (bp_add_to_ctx fresh_bp (thread quiet_world))) = 4096 /\
  DR7.local_breakpoint 0
    (Dr7 (snd (bp_add_to_ctx fresh_bp (thread quiet_world)))) = 1.
Proof.
  split; [ reflexivity | ].
  destruct (proj2 (proj2 (added_slot_is_the_free_one
                            fresh_bp (thread quiet_world))) eq_refl)
    as (_ & Hidx & Haddr & Hl).
  split; [ exact Hidx | ].
  split; [ exact Haddr | exact Hl ].
Defined.

(* ===================================================================== *)
(** ** The register unions: both directions, both registers *)
(* ===================================================================== *)

(** The topmost member of a 64-bit unit holds everything from its offset
    upwards. *)
Lemma get_top (off w x : Z) :
  0 <= off -> 0 <= w -> off + w = 64 -> is_uint64 x ->
  Z.shiftl (Bitfield.get off w x) off = Z.shiftl (Z.shiftr x off) off.
Proof.
  unfold is_uint64, uint64_max. intros Ho Hw Hsum Hx. f_equal.
  unfold Bitfield.get. rewrite Z.land_ones by lia.
  apply Z.mod_small. rewrite Z.shiftr_div_pow2 by lia.
  assert (Hp : 2 ^ 64 = 2 ^ off * 2 ^ w)
    by (rewrite <- Z.pow_add_r by lia; f_equal; lia).
  assert (Hpo : 0 < 2 ^ off) by (apply Z.pow_pos_nonneg; lia).
  split.
  - apply Z.div_pos; lia.
  - apply Z.div_lt_upper_bound; lia.
Qed.

(** X1. Reading every member of the DR6 union whose [flags] holds a 64-bit
    value [x] and putting the members back at their positions gives [x]. *)
Theorem dr6_encode_decode (x : Z) :
  is_uint64 x -> DR6.encode (DR6.decode x) = x.
Proof.
  intros Hx.
  unfold DR6.encode, DR6.decode, DR7.place.
  cbn [DR6.f_breakpoint_condition DR6.f_reserved1
       DR6.f_debug_register_access_detected DR6.f_single_instruction
       DR6.f_task_switch DR6.f_restricted_transactional_memory
       DR6.f_reserved2].
  unfold DR6.breakpoint_condition, DR6.debug_register_access_detected,
    DR6.single_instruction, DR6.task_switch,
    DR6.restricted_transactional_memory, DR7.rd.
  cbn [fst snd DR6.breakpoint_condition_at DR6.reserved1_at
       DR6.debug_register_access_detected_at DR6.single_instruction_at
       DR6.task_switch_at DR6.restricted_transactional_memory_at
       DR6.reserved2_at].
  rewrite (get_top 17 47 x) by (assumption || lia).
  glue 16 1. glue 15 1. glue 14 1. glue 13 1. glue 4 9. glue 0 4.
  apply shift_round_0.
Qed.

Lemma dr6_encode_decode_witness :
  is_uint64 18446744073709551615 /\
  DR6.encode (DR6.decode 18446744073709551615) = 18446744073709551615.
Proof.
  assert (H : is_uint64 18446744073709551615)
    by (unfold is_uint64, uint64_max; lia).
  split; [ exact H | apply (dr6_encode_decode 18446744073709551615 H) ].
Defined.

Lemma testbit_beyond (w f k : Z) :
  0 <= w -> 0 <= f < 2 ^ w -> w <= k -> Z.testbit f k = false.
Proof.
  intros Hw Hf Hk.
  rewrite <- (Z.mod_small f (2 ^ w)) by assumption.
  apply Z.mod_pow2_bits_high. lia.
Qed.

Lemma low_zero_shiftl (m off f : Z) :
  0 <= off -> m <= off -> low_zero m (Z.shiftl f off).
Proof.
  intros Ho Hm n Hn.
  destruct (Z.ltb_spec n 0).
  - apply Z.testbit_neg_r. assumption.
  - apply Z.shiftl_spec_low. lia.
Qed.

Lemma low_zero_lor (m s t : Z) :
  low_zero m s -> low_zero m t -> low_zero m (Z.lor s t).
Proof.
  intros Hs Ht n Hn. rewrite Z.lor_spec, (Hs n Hn), (Ht n Hn). reflexivity.
Qed.

(** A member placed below the one read does not show in it. *)
Lemma get_lor_skip (off w f off' w' t : Z) :
  0 <= off -> 0 <= w -> 0 <= f < 2 ^ w -> off + w <= off' -> 0 <= w' ->
  Bitfield.get off' w' (Z.lor (Z.shiftl f off) t) = Bitfield.get off' w' t.
Proof.
  intros Ho Hw Hf Hd Hw'. apply Z.bits_inj'; intros n Hn.
  rewrite !testbit_get by lia.
  rewrite Z.lor_spec, Z.shiftl_spec by lia.
  rewrite (testbit_beyond w f (n + off' - off)) by lia.
  reflexivity.
Qed.

(** The member read is the one placed there when nothing above reaches
    down into it. *)
Lemma get_lor_here (off w f t : Z) :
  0 <= off -> 0 <= w -> 0 <= f < 2 ^ w -> low_zero (off + w) t ->
  Bitfield.get off w (Z.lor (Z.shiftl f off) t) = f.
Proof.
  intros Ho Hw Hf Ht. apply Z.bits_inj'; intros n Hn.
  rewrite testbit_get by lia.
  rewrite Z.lor_spec, Z.shiftl_spec by lia.
  replace (n + off - off) with n by lia.
  destruct (Z.ltb_spec n w) as [Hin | Hout]; cbn [andb].
  - rewrite (Ht (n + off)) by lia. apply orb_false_r.
  - symmetry. apply (testbit_beyond w); assumption.
Qed.

Lemma get_shiftl_here (off w f : Z) :
  0 <= off -> 0 <= w -> 0 <= f < 2 ^ w ->
  Bitfield.get off w (Z.shiftl f off) = f.
Proof.
  intros Ho Hw Hf.
  rewrite <- (Z.lor_0_r (Z.shiftl f off)).
  apply get_lor_here; try assumption.
  intros n _. apply Z.testbit_0_l.
Qed.

Ltac low_zero_tail :=
  repeat (apply low_zero_lor; [ apply low_zero_shiftl; lia | ]);
  apply low_zero_shiftl; lia.

Ltac skip_member :=
  match goal with
  | |- context [ Bitfield.get ?o' ?w' (Z.lor (Z.shiftl ?f ?o) ?t) ] =>
      match goal with
      | H : 0 <= f < 2 ^ ?w |- _ =>
          rewrite (get_lor_skip o w f o' w' t) by (assumption || lia)
      end
  end.

Ltac read_member :=
  repeat skip_member;
  match goal with
  | |- Bitfield.get ?o ?w (Z.lor (Z.shiftl ?f ?o) ?t) = ?f =>
      apply (get_lor_here o w f t);
      [ lia | lia | assumption | low_zero_tail ]
  | |- Bitfield.get ?o ?w (Z.shiftl ?f ?o) = ?f =>
      apply (get_shiftl_here o w f); [ lia | lia | assumption ]
  end.

Ltac dr7_layout :=
  unfold DR7.local_breakpoint_0, DR7.global_breakpoint_0,
    DR7.local_breakpoint_1, DR7.global_breakpoint_1,
    DR7.local_breakpoint_2, DR7.global_breakpoint_2,
    DR7.local_breakpoint_3, DR7.global_breakpoint_3,
    DR7.read_write_0, DR7.length_0, DR7.read_write_1, DR7.length_1,
    DR7.read_write_2, DR7.length_2, DR7.read_write_3, DR7.length_3,
    DR7.rd, DR7.wr, DR7.place, fits in *;
  unfold DR7.local_breakpoint_0_at, DR7.global_breakpoint_0_at,
    DR7.local_breakpoint_1_at, DR7.global_breakpoint_1_at,
    DR7.local_breakpoint_2_at, DR7.global_breakpoint_2_at,
    DR7.local_breakpoint_3_at, DR7.global_breakpoint_3_at,
    DR7.local_exact_breakpoint_at, DR7.global_exact_breakpoint_at,
    DR7.reserved1_at, DR7.restricted_transactional_memory_at,
    DR7.reserved2_at, DR7.general_detect_at, DR7.reserved3_at,
    DR7.read_write_0_at, DR7.length_0_at, DR7.read_write_1_at,
    DR7.length_1_at, DR7.read_write_2_at, DR7.length_2_at,
    DR7.read_write_3_at, DR7.length_3_at, DR7.reserved4_at in *;
  cbn [fst snd] in *.

Ltac member_at o t :=
  match t with
  | Z.lor (Z.shiftl ?f o) _ => f
  | Z.lor _ ?t' => member_at o t'
  | Z.shiftl ?f o => f
  end.

Ltac settle_member :=
  match goal with
  | |- context [ Bitfield.get ?o ?w (Z.lor ?a ?b) ] =>
      let f := member_at o (Z.lor a b) in
      let E := fresh "E" in
      assert (E : Bitfield.get o w (Z.lor a b) = f) by read_member;
      rewrite E; clear E
  end.

(** X2. The other direction for DR7: when every member value fits its
    width, storing the members and reading them back returns each one; no
    member reaches into another. *)
Theorem dr7_decode_encode (d : DR7.fields) :
  dr7_fields_fit d -> DR7.decode (DR7.encode d) = d.
Proof.
  destruct d. unfold dr7_fields_fit.
  cbn [DR7.f_local_breakpoint_0 DR7.f_global_breakpoint_0
       DR7.f_local_breakpoint_1 DR7.f_global_breakpoint_1
       DR7.f_local_breakpoint_2 DR7.f_global_breakpoint_2
       DR7.f_local_breakpoint_3 DR7.f_global_breakpoint_3
       DR7.f_local_exact_breakpoint DR7.f_global_exact_breakpoint
       DR7.f_reserved1 DR7.f_restricted_transactional_memory
       DR7.f_reserved2 DR7.f_general_detect DR7.f_reserved3
       DR7.f_read_write_0 DR7.f_length_0 DR7.f_read_write_1 DR7.f_length_1
       DR7.f_read_write_2 DR7.f_length_2 DR7.f_read_write_3 DR7.f_length_3
       DR7.f_reserved4].
  intros H. decompose [and] H. clear H.
  unfold DR7.decode, DR7.encode.
  cbn [DR7.f_local_breakpoint_0 DR7.f_global_breakpoint_0
       DR7.f_local_breakpoint_1 DR7.f_global_breakpoint_1
       DR7.f_local_breakpoint_2 DR7.f_global_breakpoint_2
       DR7.f_local_breakpoint_3 DR7.f_global_breakpoint_3
       DR7.f_local_exact_breakpoint DR7.f_global_exact_breakpoint
       DR7.f_reserved1 DR7.f_restricted_transactional_memory
       DR7.f_reserved2 DR7.f_general_detect DR7.f_reserved3
       DR7.f_read_write_0 DR7.f_length_0 DR7.f_read_write_1 DR7.f_length_1
       DR7.f_read_write_2 DR7.f_length_2 DR7.f_read_write_3 DR7.f_length_3
       DR7.f_reserved4].
  dr7_layout.
  repeat settle_member.
  reflexivity.
Qed.

Lemma dr7_decode_encode_witness :
  dr7_fields_fit (DR7.decode 18446744073709551615) /\
  DR7.decode (DR7.encode (DR7.decode 18446744073709551615))
  = DR7.decode 18446744073709551615.
Proof.
  assert (H : dr7_fields_fit (DR7.decode 18446744073709551615))
    by (unfold dr7_fields_fit, fits; cbn; lia).
  split; [ exact H | apply (dr7_decode_encode _ H) ].
Defined.

(** X3. The same for DR6: members that fit their widths are read back as
    stored. *)
Theorem dr6_decode_encode (d : DR6.fields) :
  dr6_fields_fit d -> DR6.decode (DR6.encode d) = d.
Proof.
  destruct d. unfold dr6_fields_fit.
  cbn [DR6.f_breakpoint_condition DR6.f_reserved1
       DR6.f_debug_register_access_detected DR6.f_single_instruction
       DR6.f_task_switch DR6.f_restricted_transactional_memory
       DR6.f_reserved2].
  intros H. decompose [and] H. clear H.
  unfold DR6.decode, DR6.encode.
  cbn [DR6.f_breakpoint_condition DR6.f_reserved1
       DR6.f_debug_register_access_detected DR6.f_single_instruction
       DR6.f_task_switch DR6.f_restricted_transactional_memory
       DR6.f_reserved2].
  unfold DR6.breakpoint_condition, DR6.debug_register_access_detected,
    DR6.single_instruction, DR6.task_switch,
    DR6.restricted_transactional_memory, DR7.rd, DR7.place, fits in *.
  unfold DR6.breakpoint_condition_at, DR6.reserved1_at,
    DR6.debug_register_access_detected_at, DR6.single_instruction_at,
    DR6.task_switch_at, DR6.restricted_transactional_memory_at,
    DR6.reserved2_at in *.
  cbn [fst snd] in *.
  repeat settle_member.
  reflexivity.
Qed.

Lemma dr6_decode_encode_witness :
  dr6_fields_fit (DR6.decode 18446744073709551615) /\
  DR6.decode (DR6.encode (DR6.decode 18446744073709551615))
  = DR6.decode 18446744073709551615.
Proof.
  assert (H : dr6_fields_fit (DR6.decode 18446744073709551615))
    by (unfold dr6_fields_fit, fits; cbn; lia).
  split; [ exact H | apply (dr6_decode_encode _ H) ].
Defined.

Ltac pick_member H :=
  cbn [dr7_members In] in H;
  repeat (destruct H as [H | H]; [ subst | ]);
  [ .. | contradiction ].

(** X4. The members of DR7 do not overlap: reading a member after a write
    to it gives the low bits of the value written, as many as the member is
    wide; reading any other member gives what it held before. *)
Theorem dr7_member_write (a b : Z * Z) (v x : Z) :
  In a dr7_members -> In b dr7_members ->
  (a = b -> DR7.rd b (DR7.wr a v x) = v mod 2 ^ snd a) /\
  (a <> b -> DR7.rd b (DR7.wr a v x) = DR7.rd b x).
Proof.
  intros Ha Hb. split.
  - intros <-. unfold DR7.rd, DR7.wr.
    pick_member Ha; dr7_layout;
      (rewrite get_set_same by lia; apply Z.land_ones; lia).
  - intros Hne. unfold DR7.rd, DR7.wr.
    pick_member Ha; pick_member Hb; dr7_layout;
      first [ congruence | apply get_set_other; lia ].
Qed.

Lemma dr7_member_write_witness :
  DR7.rd DR7.length_1_at (DR7.wr DR7.length_1_at 7 0) = 3 /\
  DR7.rd DR7.read_write_1_at (DR7.wr DR7.length_1_at 7 0) = 0.
Proof.
  assert (Ha : In DR7.length_1_at dr7_members) by (cbn; tauto).
  assert (Hb : In DR7.read_write_1_at dr7_members) by (cbn; tauto).
  split.
  - apply (proj1 (dr7_member_write DR7.length_1_at DR7.length_1_at 7 0
                    Ha Ha) eq_refl).
  - apply (proj2 (dr7_member_write DR7.length_1_at DR7.read_write_1_at 7 0
                    Ha Hb)).
    discriminate.
Defined.

(* ===================================================================== *)
(** ** When the two operations succeed, and what they call *)
(* ===================================================================== *)

Lemma bp_add_to_ctx_ok (bp : HWBP) (ctx : CONTEXT) :
  fst (fst (bp_add_to_ctx bp ctx)) = negb (get_free_index (Dr7 ctx) =? -1).
Proof.
  destruct (get_free_index_range (Dr7 ctx)) as [E | Hr].
  - rewrite bp_add_to_ctx_full by assumption. rewrite E. reflexivity.
  - rewrite bp_add_to_ctx_free by assumption. cbn [fst].
    destruct (Z.eqb_spec (get_free_index (Dr7 ctx)) (-1)); [ lia | ].
    reflexivity.
Qed.

Lemma bp_remove_from_ctx_ok (bp : HWBP) (ctx : CONTEXT) :
  fst (fst (bp_remove_from_ctx bp ctx)) = slot_assigned bp.
Proof.
  unfold slot_assigned.
  destruct (Z.leb_spec 0 (index bp)); destruct (Z.leb_spec (index bp) 3);
    cbn [andb];
    first [ rewrite bp_remove_from_ctx_assigned by lia; reflexivity
          | rewrite bp_remove_from_ctx_unassigned by lia; reflexivity ].
Qed.

Lemma transaction_returns (a : Answers)
    (mutate : HWBP -> CONTEXT -> bool * HWBP * CONTEXT) (e : bool)
    (bp : HWBP) (w : World) :
  fst (fst (transaction a mutate e bp w)) =
  primitives_succeed a && fst (fst (mutate bp (context_read w))).
Proof.
  unfold primitives_succeed, suspended, acquired.
  cbv beta zeta delta [transaction].
  destruct (OpenThread_returns a =? 0); [ reflexivity | ].
  destruct (SuspendThread_returns a =? DWORD_minus_1); [ reflexivity | ].
  destruct (GetThreadContext_ok a); [ | reflexivity ].
  destruct (fst (fst (mutate bp (context_read w))));
    [ | cbn; rewrite andb_false_r; reflexivity ].
  destruct (SetThreadContext_ok a); reflexivity.
Qed.

Lemma transaction_protocol (a : Answers)
    (mutate : HWBP -> CONTEXT -> bool * HWBP * CONTEXT) (e : bool)
    (bp : HWBP) (w : World) :
  calls_of (transaction a mutate e bp) w =
  protocol a (threadId bp) (fst (fst (mutate bp (context_read w)))).
Proof.
  unfold calls_of, protocol, suspended, acquired.
  cbv beta zeta delta [transaction].
  destruct (OpenThread_returns a =? 0);
    [ cbn [snd calls negb andb]; apply skipn_own_length | ].
  destruct (SuspendThread_returns a =? DWORD_minus_1);
    [ cbn [snd calls negb andb]; apply skipn_own_length | ].
  destruct (GetThreadContext_ok a);
    [ | cbn [snd calls negb andb]; apply skipn_own_length ].
  destruct (fst (fst (mutate bp (context_read w))));
    [ | cbn [snd calls negb andb]; apply skipn_own_length ].
  destruct (SetThreadContext_ok a);
    cbn [snd calls negb andb]; apply skipn_own_length.
Qed.

(** X5. [bp_enable] returns TRUE exactly when [OpenThread] gave a handle,
    [SuspendThread], [GetThreadContext] and [SetThreadContext] succeeded and
    the thread's DR7 had a slot whose local-enable bit is clear. *)
Theorem bp_enable_returns (a : Answers) (bp : HWBP) (w : World) :
  fst (fst (bp_enable a bp w)) =
  primitives_succeed a && negb (get_free_index (Dr7 (thread w)) =? -1).
Proof.
  rewrite bp_enable_transaction, transaction_returns, bp_add_to_ctx_ok.
  reflexivity.
Qed.

(** X6. [bp_disable] returns TRUE exactly when the four primitives
    succeeded and the descriptor's index is one of 0..3. *)
Theorem bp_disable_returns (a : Answers) (bp : HWBP) (w : World) :
  fst (fst (bp_disable a bp w)) = primitives_succeed a && slot_assigned bp.
Proof.
  rewrite bp_disable_transaction, transaction_returns, bp_remove_from_ctx_ok.
  reflexivity.
Qed.

(** X7. The calls of a run, in order: [OpenThread]; then, with a handle,
    [SuspendThread] ... [CloseHandle]; between them, with the thread
    suspended, [GetThreadContext] ... [ResumeThread]; and
    [SetThreadContext] in between only when the context was read and the
    mutation succeeded (a free slot for enable, an index 0..3 for
    disable). *)
Theorem calls_follow_protocol (a : Answers) (bp : HWBP) (w : World) :
  calls_of (bp_enable a bp) w =
    protocol a (threadId bp)
      (negb (get_free_index (Dr7 (thread w)) =? -1)) /\
  calls_of (bp_disable a bp) w =
    protocol a (threadId bp) (slot_assigned bp).
Proof.
  split.
  - replace (calls_of (bp_enable a bp) w)
      with (calls_of (transaction a bp_add_to_ctx true bp) w)
      by (unfold calls_of; rewrite bp_enable_transaction; reflexivity).
    rewrite transaction_protocol, bp_add_to_ctx_ok. reflexivity.
  - replace (calls_of (bp_disable a bp) w)
      with (calls_of (transaction a bp_remove_from_ctx false bp) w)
      by (unfold calls_of; rewrite bp_disable_transaction; reflexivity).
    rewrite transaction_protocol, bp_remove_from_ctx_ok. reflexivity.
Qed.

(** X8. A call that returns FALSE has not changed the thread's debug
    registers, whichever step failed. *)
Theorem failed_call_leaves_thread_untouched
    (a : Answers) (bp : HWBP) (w : World) :
  (fst (fst (bp_enable a bp w)) = false ->
   thread (snd (bp_enable a bp w)) = thread w) /\
  (fst (fst (bp_disable a bp w)) = false ->
   thread (snd (bp_disable a bp w)) = thread w).
Proof.
  rewrite bp_enable_transaction, bp_disable_transaction.
  split; apply transaction_failure_thread.
Qed.

Lemma failed_call_leaves_thread_untouched_witness :
  thread (snd (bp_enable all_succeed other_bp full_world))
    = thread full_world /\
  thread (snd (bp_disable write_fails armed_bp armed_world))
    = thread armed_world.
Proof.
  split.
  - apply (proj1 (failed_call_leaves_thread_untouched
                    all_succeed other_bp full_world) eq_refl).
  - apply (proj2 (failed_call_leaves_thread_untouched
                    write_fails armed_bp armed_world) eq_refl).
Defined.

Lemma set_index_request (i : Z) (bp : HWBP) :
  same_request bp (set_index i bp).
Proof. repeat split. Qed.

Lemma set_enabled_request (e : bool) (bp : HWBP) :
  same_request bp (set_enabled e bp).
Proof. repeat split. Qed.

Lemma same_request_trans (b1 b2 b3 : HWBP) :
  same_request b1 b2 -> same_request b2 b3 -> same_request b1 b3.
Proof.
  unfold same_request. intros (A1 & A2 & A3 & A4) (B1 & B2 & B3 & B4).
  repeat split; congruence.
Qed.

Lemma transaction_request (a : Answers)
    (mutate : HWBP -> CONTEXT -> bool * HWBP * CONTEXT) (e : bool)
    (bp : HWBP) (w : World) :
  (forall b c, same_request b (snd (fst (mutate b c)))) ->
  same_request bp (snd (fst (transaction a mutate e bp w))).
Proof.
  intros Hm. cbv beta zeta delta [transaction].
  destruct (OpenThread_returns a =? 0); [ repeat split | ].
  destruct (SuspendThread_returns a =? DWORD_minus_1); [ repeat split | ].
  destruct (negb (GetThreadContext_ok a)); [ repeat split | ].
  destruct (negb (fst (fst (mutate bp (context_read w)))));
    [ apply Hm | ].
  destruct (negb (SetThreadContext_ok a)); [ apply Hm | ].
  cbn [fst snd].
  apply same_request_trans with (snd (fst (mutate bp (context_read w))));
    [ apply Hm | apply set_enabled_request ].
Qed.

(** X9. Neither operation, on any exit, changes what the descriptor asks
    for: target, thread id, condition and length stay as created. *)
Theorem request_is_never_modified (a : Answers) (bp : HWBP) (w : World) :
  same_request bp (snd (fst (bp_enable a bp w))) /\
  same_request bp (snd (fst (bp_disable a bp w))).
Proof.
  rewrite bp_enable_transaction, bp_disable_transaction.
  split; apply transaction_request.
  - intros b c. unfold bp_add_to_ctx.
    destruct (get_free_index (Dr7 c) =? -1); [ repeat split | ].
    destruct (bp_add_switch _ _ _ _) as [[c1 d] | ];
      [ apply set_index_request | repeat split ].
  - intros b c. unfold bp_remove_from_ctx.
    destruct (bp_remove_switch _ _ _) as [[c1 d] | ];
      [ apply set_index_request | apply set_enabled_request ].
Qed.

(* ===================================================================== *)
(** ** The descriptor on the exits that come before the context write *)
(* ===================================================================== *)

(** X10. When a call returns FALSE and the failing step is not
    [SetThreadContext] (that primitive succeeds when reached, or the run
    ends before it: no suspension, no context read, no free slot), the
    descriptor is exactly as it was.  For [bp_disable] this is for a
    descriptor with a slot 0..3. *)
Theorem failure_before_write_keeps_descriptor
    (a : Answers) (bp : HWBP) (w : World) :
  (fst (fst (bp_enable a bp w)) = false ->
   SetThreadContext_ok a = true \/ suspended a = false \/
   GetThreadContext_ok a = false \/
   get_free_index (Dr7 (thread w)) = -1 ->
   snd (fst (bp_enable a bp w)) = bp) /\
  (fst (fst (bp_disable a bp w)) = false ->
   slot_assigned bp = true ->
   SetThreadContext_ok a = true \/ suspended a = false \/
   GetThreadContext_ok a = false ->
   snd (fst (bp_disable a bp w)) = bp).
Proof.
  rewrite bp_enable_transaction, bp_disable_transaction.
  unfold suspended, acquired.
  cbv beta zeta delta [transaction].
  destruct (OpenThread_returns a =? 0); [ split; reflexivity | ].
  destruct (SuspendThread_returns a =? DWORD_minus_1);
    [ split; reflexivity | ].
  destruct (GetThreadContext_ok a); cbn [negb andb];
    [ | split; reflexivity ].
  split.
  - destruct (get_free_index_range (Dr7 (context_read w))) as [E | Hr].
    + rewrite bp_add_to_ctx_full by assumption. reflexivity.
    + rewrite bp_add_to_ctx_free by assumption. cbn [fst snd negb].
      rewrite Dr7_context_read in Hr.
      destruct (SetThreadContext_ok a); cbn [negb fst snd].
      * discriminate.
      * intros _ [H | [H | [H | H]]]; try discriminate H. lia.
  - intros Hres Hslot. unfold slot_assigned in Hslot.
    apply andb_true_iff in Hslot. destruct Hslot as [H0 H3].
    apply Z.leb_le in H0, H3.
    revert Hres.
    rewrite bp_remove_from_ctx_assigned by lia. cbn [fst snd negb].
    destruct (SetThreadContext_ok a); cbn [negb fst snd].
    + discriminate.
    + intros _ [H | [H | H]]; discriminate H.
Qed.

Lemma failure_before_write_keeps_descriptor_witness :
  snd (fst (bp_enable all_succeed other_bp full_world)) = other_bp /\
  snd (fst (bp_disable (mkAnswers 44 DWORD_minus_1 true true)
              armed_bp armed_world)) = armed_bp.
Proof.
  split.
  - apply (proj1 (failure_before_write_keeps_descriptor
                    all_succeed other_bp full_world) eq_refl).
    left. reflexivity.
  - apply (proj2 (failure_before_write_keeps_descriptor
                    (mkAnswers 44 DWORD_minus_1 true true)
                    armed_bp armed_world) eq_refl eq_refl).
    left. reflexivity.
Defined.

Lemma bp_enable_slot_in_range (a : Answers) (bp : HWBP) (w : World) :
  slot_in_range bp -> slot_in_range (snd (fst (bp_enable a bp w))).
Proof.
  intros Hr. unfold slot_in_range in *.
  destruct (fst (fst (bp_enable a bp w))) eqn:Hres.
  - destruct (bp_enable_success a bp w Hres) as (Hi & Hbp & _).
    rewrite Hbp. cbn. lia.
  - destruct (bp_enable_failure_descriptor a bp w Hres)
      as [-> | (_ & Hi & ->)]; [ assumption | cbn; lia ].
Qed.

Lemma bp_disable_slot_in_range (a : Answers) (bp : HWBP) (w : World) :
  slot_in_range bp -> slot_in_range (snd (fst (bp_disable a bp w))).
Proof.
  intros Hr. unfold slot_in_range in *.
  destruct (fst (fst (bp_disable a bp w))) eqn:Hres.
  - destruct (bp_disable_success a bp w Hres) as (_ & Hbp & _).
    rewrite Hbp. cbn. lia.
  - destruct (bp_disable_failure_descriptor a bp w Hres)
      as [-> | [(_ & ->) | (_ & _ & ->)]]; [ assumption | | cbn; lia ].
    cbn. assumption.
Qed.

(** X11. Provided [SetThreadContext] does not fail, the two operations keep
    a descriptor in its allowed states on every exit: the index stays -1
    or 0..3, and it is -1 exactly when the descriptor is not enabled.
    [bp_create] starts a descriptor in such a state. *)
Theorem descriptor_states_kept_when_write_succeeds
    (a : Answers) (bp : HWBP) (w : World) :
  SetThreadContext_ok a = true ->
  slot_in_range bp -> slot_iff_enabled bp ->
  (slot_in_range (snd (fst (bp_enable a bp w))) /\
   slot_iff_enabled (snd (fst (bp_enable a bp w)))) /\
  (slot_in_range (snd (fst (bp_disable a bp w))) /\
   slot_iff_enabled (snd (fst (bp_disable a bp w)))).
Proof.
  intros Hset Hr Hinv. split; split.
  - apply bp_enable_slot_in_range; assumption.
  - apply bp_enable_slot_iff_enabled; assumption.
  - apply bp_disable_slot_in_range; assumption.
  - apply bp_disable_slot_iff_enabled; assumption.
Qed.

Lemma descriptor_states_kept_when_write_succeeds_witness :
  slot_iff_enabled (snd (fst (bp_enable all_succeed fresh_bp idle_world))) /\
  slot_iff_enabled
    (snd (fst (bp_disable all_succeed fresh_bp idle_world))).
Proof.
  assert (Hr : slot_in_range fresh_bp) by (unfold slot_in_range; cbn; lia).
  assert (Hi : slot_iff_enabled fresh_bp)
    by (unfold slot_iff_enabled; cbn; tauto).
  destruct (descriptor_states_kept_when_write_succeeds
              all_succeed fresh_bp idle_world eq_refl Hr Hi)
    as ((_ & He) & (_ & Hd)).
  split; assumption.
Defined.

(** X12. [bp_enable] looks at neither [index] nor [enabled]: whatever they
    hold, it returns the same value, makes the same calls and leaves the
    thread in the same state, and on success the same descriptor.  Enabling
    an enabled descriptor is not refused. *)
Theorem bp_enable_ignores_assignment
    (a : Answers) (bp : HWBP) (w : World) (i : Z) (e : bool) :
  fst (fst (bp_enable a (set_enabled e (set_index i bp)) w))
    = fst (fst (bp_enable a bp w)) /\
  snd (bp_enable a (set_enabled e (set_index i bp)) w)
    = snd (bp_enable a bp w) /\
  (fst (fst (bp_enable a bp w)) = true ->
   snd (fst (bp_enable a (set_enabled e (set_index i bp)) w))
     = snd (fst (bp_enable a bp w))).
Proof.
  rewrite !bp_enable_transaction.
  cbv beta zeta delta [transaction].
  cbn [threadId set_enabled set_index].
  destruct (OpenThread_returns a =? 0);
    [ repeat split; discriminate | ].
  destruct (SuspendThread_returns a =? DWORD_minus_1);
    [ repeat split; discriminate | ].
  destruct (negb (GetThreadContext_ok a));
    [ repeat split; discriminate | ].
  destruct (get_free_index_range (Dr7 (context_read w))) as [E | Hr].
  - rewrite !bp_add_to_ctx_full by assumption. cbn [fst snd negb].
    repeat split; discriminate.
  - rewrite !bp_add_to_ctx_free by assumption. cbn [fst snd negb].
    destruct (negb (SetThreadContext_ok a)); cbn [fst snd];
      repeat split; discriminate.
Qed.

Lemma bp_enable_ignores_assignment_witness :
  snd (fst (bp_enable all_succeed
              (set_enabled true (set_index 0 fresh_bp)) armed_world))
  = snd (fst (bp_enable all_succeed fresh_bp armed_world)).
Proof.
  apply (proj2 (proj2 (bp_enable_ignores_assignment
                         all_succeed fresh_bp armed_world 0 true))).
  reflexivity.
Defined.

(* ===================================================================== *)
(** ** What success does to the thread *)
(* ===================================================================== *)

Lemma local_breakpoint_at_slot (i x : Z) :
  0 <= i <= 3 -> DR7.local_breakpoint i x = Bitfield.get (2 * i) 1 x.
Proof. intros Hi. four_cases i; reflexivity. Qed.

(** The members of another breakpoint are not touched by the writes. *)
Lemma write_slot_other_slot (i j l len rw x : Z) :
  0 <= i <= 3 -> 0 <= j <= 3 -> j <> i ->
  DR7.local_breakpoint j (write_slot i l len rw x)
    = DR7.local_breakpoint j x /\
  DR7.read_write j (write_slot i l len rw x) = DR7.read_write j x /\
  DR7.length j (write_slot i l len rw x) = DR7.length j x.
Proof.
  intros Hi Hj Hne.
  rewrite !local_breakpoint_at_slot, !read_write_at_slot, !length_at_slot
    by assumption.
  unfold write_slot.
  repeat split; rewrite !get_set_other by lia; reflexivity.
Qed.

Lemma get_free_index_lowest (x : Z) :
  0 <= get_free_index x <= 3 ->
  DR7.local_breakpoint (get_free_index x) x = 0 /\
  forall j, 0 <= j < get_free_index x -> DR7.local_breakpoint j x = 1.
Proof.
  intros Hr.
  destruct (get_free_index_cases x)
    as [[E H] | [[E H] | [[E H] | [[E H] | [E H]]]]];
    rewrite E in *; try lia;
    (split; [ tauto | ]);
    intros j Hj;
    assert (Hc : j = 0 \/ j = 1 \/ j = 2) by lia;
    destruct Hc as [-> | [-> | ->]]; try lia; tauto.
Qed.

Lemma get_free_index_at_most (i x : Z) :
  0 <= i <= 3 -> DR7.local_breakpoint i x = 0 ->
  0 <= get_free_index x <= i.
Proof.
  intros Hi Hfree.
  destruct (get_free_index_cases x)
    as [[E H] | [[E H] | [[E H] | [[E H] | [E H]]]]];
    rewrite E; four_cases i; lia.
Qed.

Lemma only_slot_changed_thread (i v x : Z) (w : World) :
  0 <= i <= 3 ->
  (forall n, DR7.owned_by i n = false ->
             Z.testbit x n = Z.testbit (Dr7 (thread w)) n) ->
  only_slot_changed i (thread w)
    (copy_debug_registers (set_Dr7 x (set_DrN i v (context_read w)))
       (thread w)).
Proof.
  intros Hi Hbits. unfold only_slot_changed.
  rewrite Dr7_copied.
  destruct (set_DrN_rest i v x (context_read w)) as (E7 & _).
  rewrite E7. repeat split.
  - assumption.
  - intros j Hj. rewrite DrN_copied, set_DrN_other by assumption.
    unfold context_read. apply DrN_copied.
  - unfold set_DrN.
    destruct i as [ | [ [ | | ] | [ | | ] | ] | ]; reflexivity.
Qed.

Lemma bp_enable_thread
    (a : Answers) (bp bp' : HWBP) (w w' : World) :
  bp_enable a bp w = (true, bp', w') ->
  0 <= get_free_index (Dr7 (thread w)) <= 3 /\
  bp' = set_enabled true (set_index (get_free_index (Dr7 (thread w))) bp) /\
  Dr7 (thread w') =
    write_slot (get_free_index (Dr7 (thread w))) 1
      (BP_LENGTH_value (length bp)) (BP_READ_WRITE_value (read_write bp))
      (Dr7 (thread w)) /\
  DrN (get_free_index (Dr7 (thread w))) (thread w') = target bp /\
  only_slot_changed (get_free_index (Dr7 (thread w))) (thread w) (thread w').
Proof.
  intros Hen.
  assert (Hok : fst (fst (bp_enable a bp w)) = true)
    by (rewrite Hen; reflexivity).
  destruct (bp_enable_success a bp w Hok) as (Hi & Hbp & Hth).
  rewrite Hen in Hbp, Hth. cbn [fst snd] in Hbp, Hth.
  split; [ assumption | ]. split; [ assumption | ].
  rewrite Hth, Dr7_copied, DrN_copied.
  destruct (set_DrN_rest (get_free_index (Dr7 (thread w))) (target bp)
              (write_slot (get_free_index (Dr7 (thread w))) 1
                 (BP_LENGTH_value (length bp))
                 (BP_READ_WRITE_value (read_write bp)) (Dr7 (thread w)))
              (context_read w)) as (E7 & _).
  rewrite E7. split; [ reflexivity | ].
  split; [ apply set_DrN_same; assumption | ].
  apply only_slot_changed_thread; [ assumption | ].
  intros n Hn. apply write_slot_frame; [ lia | assumption ].
Qed.

Lemma bp_disable_thread
    (a : Answers) (bp bp' : HWBP) (w w' : World) :
  bp_disable a bp w = (true, bp', w') ->
  0 <= index bp <= 3 /\
  bp' = set_enabled false (set_index (-1) bp) /\
  Dr7 (thread w') = write_slot (index bp) 0 0 0 (Dr7 (thread w)) /\
  DrN (index bp) (thread w') = 0 /\
  only_slot_changed (index bp) (thread w) (thread w').
Proof.
  intros Hdis.
  assert (Hok : fst (fst (bp_disable a bp w)) = true)
    by (rewrite Hdis; reflexivity).
  destruct (bp_disable_success a bp w Hok) as (Hi & Hbp & Hth).
  rewrite Hdis in Hbp, Hth. cbn [fst snd] in Hbp, Hth.
  split; [ assumption | ]. split; [ assumption | ].
  rewrite Hth, Dr7_copied, DrN_copied.
  destruct (set_DrN_rest (index bp) 0
              (write_slot (index bp) 0 0 0 (Dr7 (thread w)))
              (context_read w)) as (E7 & _).
  rewrite E7. split; [ reflexivity | ].
  split; [ apply set_DrN_same; assumption | ].
  apply only_slot_changed_thread; [ assumption | ].
  intros n Hn. apply write_slot_frame; [ lia | assumption ].
Qed.

(** X13. After a successful [bp_enable] the thread itself is armed: the
    descriptor is enabled with the allocator's slot, that slot's address
    register holds the target, its local-enable bit is 1, its R/W field the
    condition's code and its LEN field the length's code; every other
    debug register content of the thread is as it was. *)
Theorem enable_arms_thread
    (a : Answers) (bp bp' : HWBP) (w w' : World) :
  bp_enable a bp w = (true, bp', w') ->
  index bp' = get_free_index (Dr7 (thread w)) /\
  0 <= index bp' <= 3 /\
  enabled bp' = true /\
  DrN (index bp') (thread w') = target bp /\
  DR7.local_breakpoint (index bp') (Dr7 (thread w')) = 1 /\
  DR7.read_write (index bp') (Dr7 (thread w'))
    = BP_READ_WRITE_value (read_write bp) /\
  DR7.length (index bp') (Dr7 (thread w')) = BP_LENGTH_value (length bp) /\
  only_slot_changed (index bp') (thread w) (thread w').
Proof.
  intros Hen.
  destruct (bp_enable_thread a bp bp' w w' Hen)
    as (Hi & -> & E7 & Haddr & Hframe).
  cbn [index enabled set_enabled set_index]. rewrite E7.
  rewrite write_slot_local_breakpoint, write_slot_read_write,
    write_slot_length by assumption.
  rewrite BP_READ_WRITE_value_fits, BP_LENGTH_value_fits.
  split; [ reflexivity | ]. split; [ assumption | ].
  split; [ reflexivity | ]. split; [ assumption | ].
  split; [ reflexivity | ]. split; [ reflexivity | ].
  split; [ reflexivity | assumption ].
Qed.

Lemma enable_arms_thread_witness :
  DrN 0 (thread armed_world) = 4096 /\
  DR7.read_write 0 (Dr7 (thread armed_world)) = 1.
Proof.
  destruct (enable_arms_thread all_succeed fresh_bp armed_bp
              idle_world armed_world eq_refl)
    as (_ & _ & _ & Haddr & _ & Hrw & _).
  split; [ exact Haddr | exact Hrw ].
Defined.

Lemma slot_empty_cleared (i x : Z) :
  0 <= i <= 3 -> DR7.slot_empty i (write_slot i 0 0 0 x) = true.
Proof.
  intros Hi. unfold DR7.slot_empty.
  rewrite write_slot_local_breakpoint, write_slot_read_write,
    write_slot_length by assumption.
  reflexivity.
Qed.

(** X14. After a successful [bp_disable] the slot the descriptor recorded
    is gone from the thread: its address register is 0, its local-enable
    bit, R/W and LEN fields are 0; nothing else in the thread's debug
    registers has changed; the descriptor has index -1 and is not enabled;
    and the allocator will now hand out that slot or a lower one. *)
Theorem disable_disarms_thread
    (a : Answers) (bp bp' : HWBP) (w w' : World) :
  bp_disable a bp w = (true, bp', w') ->
  0 <= index bp <= 3 /\
  index bp' = -1 /\ enabled bp' = false /\
  DrN (index bp) (thread w') = 0 /\
  DR7.slot_empty (index bp) (Dr7 (thread w')) = true /\
  only_slot_changed (index bp) (thread w) (thread w') /\
  0 <= get_free_index (Dr7 (thread w')) <= index bp.
Proof.
  intros Hdis.
  destruct (bp_disable_thread a bp bp' w w' Hdis)
    as (Hi & -> & E7 & Haddr & Hframe).
  cbn [index enabled set_enabled set_index]. rewrite E7.
  split; [ assumption | ]. split; [ reflexivity | ].
  split; [ reflexivity | ]. split; [ assumption | ].
  split; [ apply slot_empty_cleared; assumption | ].
  split; [ assumption | ].
  apply get_free_index_at_most; [ assumption | ].
  rewrite write_slot_local_breakpoint by assumption. reflexivity.
Qed.

Lemma disable_disarms_thread_witness :
  DrN 0 (thread (snd (bp_disable all_succeed armed_bp armed_world))) = 0 /\
  get_free_index
    (Dr7 (thread (snd (bp_disable all_succeed armed_bp armed_world)))) = 0.
Proof.
  destruct (disable_disarms_thread all_succeed armed_bp
              (snd (fst (bp_disable all_succeed armed_bp armed_world)))
              armed_world
              (snd (bp_disable all_succeed armed_bp armed_world)) eq_refl)
    as (_ & _ & _ & Haddr & _ & _ & Hfree).
  split; [ exact Haddr | ].
  change (index armed_bp) with 0 in Hfree. lia.
Defined.

(* ===================================================================== *)
(** ** Several breakpoints on one thread *)
(* ===================================================================== *)

(** A successful enable marks its slot and no other. *)
Lemma enable_marks_slot
    (a : Answers) (bp bp' : HWBP) (w w' : World) :
  bp_enable a bp w = (true, bp', w') ->
  index bp' = get_free_index (Dr7 (thread w)) /\
  forall j, 0 <= j <= 3 ->
    DR7.local_breakpoint j (Dr7 (thread w')) =
    if j =? index bp' then 1
    else DR7.local_breakpoint j (Dr7 (thread w)).
Proof.
  intros Hen.
  destruct (bp_enable_thread a bp bp' w w' Hen) as (Hi & -> & E7 & _).
  cbn [index set_enabled set_index]. split; [ reflexivity | ].
  intros j Hj. rewrite E7.
  destruct (Z.eqb_spec j (get_free_index (Dr7 (thread w)))) as [-> | Hne].
  - rewrite write_slot_local_breakpoint by assumption. reflexivity.
  - apply write_slot_other_slot; assumption.
Qed.

(** X15. Two successful enables in a row on one thread never share a slot:
    the second takes a higher one, and the first breakpoint is still armed
    afterwards, with its address, condition and length.  This holds as well
    when both enables are of the same descriptor, whose index then names
    only the second slot. *)
Theorem second_enable_takes_a_later_slot
    (a1 a2 : Answers) (bpA bpA' bpB bpB' : HWBP) (w w1 w2 : World) :
  bp_enable a1 bpA w = (true, bpA', w1) ->
  bp_enable a2 bpB w1 = (true, bpB', w2) ->
  index bpA' < index bpB' /\
  DrN (index bpA') (thread w2) = target bpA /\
  DR7.local_breakpoint (index bpA') (Dr7 (thread w2)) = 1 /\
  DR7.read_write (index bpA') (Dr7 (thread w2))
    = BP_READ_WRITE_value (read_write bpA) /\
  DR7.length (index bpA') (Dr7 (thread w2))
    = BP_LENGTH_value (length bpA).
Proof.
  intros H1 H2.
  destruct (enable_marks_slot _ _ _ _ _ H1) as (I1 & M1).
  destruct (bp_enable_thread _ _ _ _ _ H1) as (Hg1 & _ & E1 & A1 & _).
  destruct (bp_enable_thread _ _ _ _ _ H2) as (Hg2 & -> & E2 & _ & F2).
  rewrite <- I1 in *.
  cbn [index set_enabled set_index].
  destruct (get_free_index_lowest (Dr7 (thread w)) ltac:(lia))
    as (_ & Hlow1).
  destruct (get_free_index_lowest (Dr7 (thread w1)) Hg2) as (Hfree2 & _).
  assert (Hlt : index bpA' < get_free_index (Dr7 (thread w1))).
  { apply Z.nle_gt. intros Hle.
    rewrite (M1 _ Hg2) in Hfree2.
    destruct (Z.eqb_spec (get_free_index (Dr7 (thread w1))) (index bpA'))
      as [Heq | Hne]; [ discriminate | ].
    rewrite Hlow1 in Hfree2 by lia. discriminate. }
  split; [ assumption | ].
  destruct F2 as (_ & Hregs & _).
  split; [ rewrite Hregs by lia; assumption | ].
  rewrite E2.
  destruct (write_slot_other_slot (get_free_index (Dr7 (thread w1)))
              (index bpA') 1 (BP_LENGTH_value (length bpB))
              (BP_READ_WRITE_value (read_write bpB)) (Dr7 (thread w1))
              Hg2 Hg1 ltac:(lia)) as (-> & -> & ->).
  rewrite E1.
  rewrite write_slot_local_breakpoint, write_slot_read_write,
    write_slot_length by assumption.
  rewrite BP_READ_WRITE_value_fits, BP_LENGTH_value_fits.
  repeat split.
Qed.

Lemma second_enable_takes_a_later_slot_witness :
  index (fresh_bp_in 0) < index (other_bp_in 1) /\
  DrN (index (fresh_bp_in 0)) (thread world_2) = target fresh_bp.
Proof.
  destruct (second_enable_takes_a_later_slot all_succeed all_succeed
              fresh_bp (fresh_bp_in 0) other_bp (other_bp_in 1)
              idle_world world_1 world_2 eq_refl eq_refl)
    as (Hlt & Haddr & _).
  split; [ exact Hlt | exact Haddr ].
Defined.

Ltac settle_bit M I j L N :=
  pose proof (M j ltac:(lia)) as N;
  rewrite I in N; cbn [Z.eqb Pos.eqb] in N;
  try rewrite L in N.

Ltac next_slot I M L0 L1 L2 L3 N0 N1 N2 N3 :=
  rewrite get_free_index_scan, L0, L1, L2, L3 in I;
  cbn [Z.eqb Pos.eqb] in I;
  settle_bit M I 0 L0 N0; settle_bit M I 1 L1 N1;
  settle_bit M I 2 L2 N2; settle_bit M I 3 L3 N3.

(** X16. On a thread none of whose four local-enable bits is set, four
    successful enables in a row are given slots 0, 1, 2 and 3 in that order,
    and any further enable fails, changing neither the thread's registers
    nor its descriptor. *)
Theorem four_enables_fill_the_slots
    (a1 a2 a3 a4 a5 : Answers)
    (bA bA' bB bB' bC bC' bD bD' bE : HWBP) (w0 w1 w2 w3 w4 : World) :
  (forall i, 0 <= i <= 3 ->
             DR7.local_breakpoint i (Dr7 (thread w0)) = 0) ->
  bp_enable a1 bA w0 = (true, bA', w1) ->
  bp_enable a2 bB w1 = (true, bB', w2) ->
  bp_enable a3 bC w2 = (true, bC', w3) ->
  bp_enable a4 bD w3 = (true, bD', w4) ->
  (index bA' = 0 /\ index bB' = 1 /\ index bC' = 2 /\ index bD' = 3) /\
  fst (fst (bp_enable a5 bE w4)) = false /\
  snd (fst (bp_enable a5 bE w4)) = bE /\
  thread (snd (bp_enable a5 bE w4)) = thread w4.
Proof.
  intros Hnone H1 H2 H3 H4.
  pose proof (Hnone 0 ltac:(lia)) as L0.
  pose proof (Hnone 1 ltac:(lia)) as L1.
  pose proof (Hnone 2 ltac:(lia)) as L2.
  pose proof (Hnone 3 ltac:(lia)) as L3.
  destruct (enable_marks_slot _ _ _ _ _ H1) as (I1 & M1).
  next_slot I1 M1 L0 L1 L2 L3 P0 P1 P2 P3.
  destruct (enable_marks_slot _ _ _ _ _ H2) as (I2 & M2).
  next_slot I2 M2 P0 P1 P2 P3 Q0 Q1 Q2 Q3.
  destruct (enable_marks_slot _ _ _ _ _ H3) as (I3 & M3).
  next_slot I3 M3 Q0 Q1 Q2 Q3 R0 R1 R2 R3.
  destruct (enable_marks_slot _ _ _ _ _ H4) as (I4 & M4).
  next_slot I4 M4 R0 R1 R2 R3 S0 S1 S2 S3.
  assert (Hfull : get_free_index (Dr7 (thread w4)) = -1)
    by (rewrite get_free_index_scan, S0, S1, S2, S3; reflexivity).
  assert (Hfail : fst (fst (bp_enable a5 bE w4)) = false)
    by (rewrite bp_enable_transaction, transaction_returns,
          bp_add_to_ctx_ok, Dr7_context_read, Hfull;
        apply andb_false_r).
  split; [ auto | ].
  split; [ assumption | ].
  split.
  - destruct (bp_enable_failure_descriptor a5 bE w4 Hfail)
      as [E | (_ & Hr & _)]; [ exact E | lia ].
  - rewrite bp_enable_transaction in *.
    apply transaction_failure_thread. assumption.
Qed.

Lemma four_enables_fill_the_slots_witness :
  index (other_bp_in 3) = 3 /\
  fst (fst (bp_enable all_succeed fresh_bp world_4)) = false /\
  thread (snd (bp_enable all_succeed fresh_bp world_4)) = thread world_4.
Proof.
  assert (Hnone : forall i, 0 <= i <= 3 ->
            DR7.local_breakpoint i (Dr7 (thread idle_world)) = 0).
  { intros i Hi.
    assert (Hc : i = 0 \/ i = 1 \/ i = 2 \/ i = 3) by lia.
    destruct Hc as [-> | [-> | [-> | ->]]]; reflexivity. }
  destruct (four_enables_fill_the_slots
              all_succeed all_succeed all_succeed all_succeed all_succeed
              fresh_bp (fresh_bp_in 0) other_bp (other_bp_in 1)
              fresh_bp (fresh_bp_in 2) other_bp (other_bp_in 3) fresh_bp
              idle_world world_1 world_2 world_3 world_4
              Hnone eq_refl eq_refl eq_refl eq_refl)
    as ((_ & _ & _ & H3) & Hfail & _ & Hthread).
  split; [ exact H3 | ]. split; [ exact Hfail | exact Hthread ].
Defined.

(* ===================================================================== *)
(** ** Enable followed by disable, in full *)
(* ===================================================================== *)

(** X17. A descriptor as [bp_create] makes it (index -1, not enabled) is
    back to exactly that value after a successful [bp_enable] followed by a
    successful [bp_disable]. *)
Theorem enable_then_disable_restores_descriptor
    (a1 a2 : Answers) (bp bp1 bp2 : HWBP) (w w1 w2 : World) :
  index bp = -1 -> enabled bp = false ->
  bp_enable a1 bp w = (true, bp1, w1) ->
  bp_disable a2 bp1 w1 = (true, bp2, w2) ->
  bp2 = bp.
Proof.
  intros Hidx Hen H1 H2.
  destruct (bp_enable_thread _ _ _ _ _ H1) as (_ & -> & _).
  destruct (bp_disable_thread _ _ _ _ _ H2) as (_ & -> & _).
  destruct bp as [t tid rw len i e]. cbn in *. subst. reflexivity.
Qed.

Lemma enable_then_disable_restores_descriptor_witness :
  snd (fst (bp_disable all_succeed (fresh_bp_in 0) world_1)) = fresh_bp.
Proof.
  apply (enable_then_disable_restores_descriptor all_succeed all_succeed
           fresh_bp (fresh_bp_in 0)
           (snd (fst (bp_disable all_succeed (fresh_bp_in 0) world_1)))
           idle_world world_1
           (snd (bp_disable all_succeed (fresh_bp_in 0) world_1))
           eq_refl eq_refl eq_refl eq_refl).
Defined.

Lemma CONTEXT_ext (c c' : CONTEXT) :
  ContextFlags c' = ContextFlags c ->
  (forall j, 0 <= j <= 3 -> DrN j c' = DrN j c) ->
  Dr6 c' = Dr6 c -> Dr7 c' = Dr7 c ->
  c' = c.
Proof.
  intros Hf Hr H6 H7.
  pose proof (Hr 0 ltac:(lia)) as R0. pose proof (Hr 1 ltac:(lia)) as R1.
  pose proof (Hr 2 ltac:(lia)) as R2. pose proof (Hr 3 ltac:(lia)) as R3.
  destruct c, c'. cbn in *. subst. reflexivity.
Qed.

(** X18. If the slot the allocator picks was empty in DR7 and its address
    register was 0, a successful [bp_enable] followed by a successful
    [bp_disable] of that descriptor gives the thread back every debug
    register as it was, also when other slots hold breakpoints. *)
Theorem enable_then_disable_restores_registers
    (a1 a2 : Answers) (bp bp1 bp2 : HWBP) (w w1 w2 : World) :
  DR7.slot_empty (get_free_index (Dr7 (thread w))) (Dr7 (thread w)) = true ->
  DrN (get_free_index (Dr7 (thread w))) (thread w) = 0 ->
  bp_enable a1 bp w = (true, bp1, w1) ->
  bp_disable a2 bp1 w1 = (true, bp2, w2) ->
  thread w2 = thread w.
Proof.
  intros Hempty Haddr H1 H2.
  destruct (bp_enable_thread _ _ _ _ _ H1) as (Hg & -> & E1 & _ & F1).
  destruct (bp_disable_thread _ _ _ _ _ H2) as (_ & _ & E2 & A2 & F2).
  cbn [index set_enabled set_index] in E2, A2, F2.
  destruct F1 as (_ & R1 & S1 & C1).
  destruct F2 as (_ & R2 & S2 & C2).
  apply CONTEXT_ext.
  - congruence.
  - intros j Hj.
    destruct (Z.eq_dec j (get_free_index (Dr7 (thread w)))) as [-> | Hne].
    + congruence.
    + rewrite R2, R1 by assumption. reflexivity.
  - congruence.
  - rewrite E2, E1. apply write_slot_clear_restores; assumption.
Qed.

Lemma enable_then_disable_restores_registers_witness :
  thread (snd (bp_disable all_succeed (other_bp_in 1) world_2))
  = thread world_1.
Proof.
  apply (enable_then_disable_restores_registers all_succeed all_succeed
           other_bp (other_bp_in 1)
           (snd (fst (bp_disable all_succeed (other_bp_in 1) world_2)))
           world_1 world_2
           (snd (bp_disable all_succeed (other_bp_in 1) world_2))
           eq_refl eq_refl eq_refl eq_refl).
Defined.

(** X19. A thread whose DR7 is a 64-bit value still has a 64-bit DR7 after
    any run of [bp_enable] or [bp_disable]. *)
Theorem calls_keep_dr7_64_bit (a : Answers) (bp : HWBP) (w : World) :
  is_uint64 (Dr7 (thread w)) ->
  is_uint64 (Dr7 (thread (snd (bp_enable a bp w)))) /\
  is_uint64 (Dr7 (thread (snd (bp_disable a bp w)))).
Proof.
  intros Hx. split.
  - destruct (bp_enable a bp w) as [[ok bp'] w'] eqn:Hrun.
    destruct ok.
    + destruct (bp_enable_thread _ _ _ _ _ Hrun) as (Hg & _ & E7 & _).
      cbn [snd]. rewrite E7. apply write_slot_uint64; assumption.
    + assert (Hfail : fst (fst (bp_enable a bp w)) = false)
        by (rewrite Hrun; reflexivity).
      rewrite bp_enable_transaction in Hfail, Hrun.
      apply transaction_failure_thread in Hfail.
      rewrite Hrun in Hfail. cbn [snd] in *. rewrite Hfail. assumption.
  - destruct (bp_disable a bp w) as [[ok bp'] w'] eqn:Hrun.
    destruct ok.
    + destruct (bp_disable_thread _ _ _ _ _ Hrun) as (Hg & _ & E7 & _).
      cbn [snd]. rewrite E7. apply write_slot_uint64; assumption.
    + assert (Hfail : fst (fst (bp_disable a bp w)) = false)
        by (rewrite Hrun; reflexivity).
      rewrite bp_disable_transaction in Hfail, Hrun.
      apply transaction_failure_thread in Hfail.
      rewrite Hrun in Hfail. cbn [snd] in *. rewrite Hfail. assumption.
Qed.

Lemma calls_keep_dr7_64_bit_witness :
  is_uint64 (Dr7 (thread (snd (bp_enable all_succeed fresh_bp quiet_world))))
  /\ is_uint64
       (Dr7 (thread (snd (bp_disable all_succeed fresh_bp quiet_world)))).
Proof.
  apply (calls_keep_dr7_64_bit all_succeed fresh_bp quiet_world).
  unfold is_uint64, uint64_max. cbn. lia.
Defined.

(** X20. [bp_disable] looks only at the descriptor's thread id and index:
    two descriptors that agree on these get the same return value, the same
    calls and the same thread state; neither [enabled] nor the target is
    compared with what the slot holds. *)
Theorem bp_disable_looks_only_at_index
    (a : Answers) (bp bp' : HWBP) (w : World) :
  threadId bp' = threadId bp -> index bp' = index bp ->
  fst (fst (bp_disable a bp' w)) = fst (fst (bp_disable a bp w)) /\
  snd (bp_disable a bp' w) = snd (bp_disable a bp w).
Proof.
  intros Htid Hidx.
  rewrite !bp_disable_transaction.
  cbv beta zeta delta [transaction]. rewrite Htid.
  destruct (OpenThread_returns a =? 0); [ split; reflexivity | ].
  destruct (SuspendThread_returns a =? DWORD_minus_1);
    [ split; reflexivity | ].
  destruct (negb (GetThreadContext_ok a)); [ split; reflexivity | ].
  destruct (Z_le_dec 0 (index bp)) as [H0 | H0];
    [ destruct (Z_le_dec (index bp) 3) as [H3 | H3] | ].
  - rewrite !bp_remove_from_ctx_assigned by lia. rewrite Hidx.
    cbn [fst snd negb].
    destruct (negb (SetThreadContext_ok a)); split; reflexivity.
  - rewrite !bp_remove_from_ctx_unassigned by lia. split; reflexivity.
  - rewrite !bp_remove_from_ctx_unassigned by lia. split; reflexivity.
Qed.

Lemma bp_disable_looks_only_at_index_witness :
  snd (bp_disable all_succeed (other_bp_in 0) world_1)
  = snd (bp_disable all_succeed (fresh_bp_in 0) world_1).
Proof.
  apply (proj2 (bp_disable_looks_only_at_index all_succeed
                  (fresh_bp_in 0) (other_bp_in 0) world_1
                  eq_refl eq_refl)).
Defined.
